(** * WhatsApp bot starter: webhook ingestion and message dispatch

    A shallow embedding of the webhook router ([app/routers/webhook.py]),
    the message handler ([app/services/message_handler.py]), the outbound
    WhatsApp client ([app/services/whatsapp.py]) and the message collection
    of the database service ([app/services/database.py]).

    The Python code is asynchronous but awaits every call in sequence, so it
    is embedded as a state-and-exception monad over a [World] that holds the
    message collection, the POSTs attempted so far and the log.  What the
    outside answers (the provider, MongoDB, the clock) is an [Env]. *)

From Stdlib Require Import String Ascii List ZArith Bool Lia.
From stdpp Require Import base option list gmap strings.
Import ListNotations.

Local Open Scope string_scope.
Local Open Scope list_scope.

(** ** JSON values, as [json.loads] hands them to the code *)

#[warnings="-register-all"]
Inductive json : Type :=
| JNull
| JBool (b : bool)
| JInt (z : Z)
| JFloat (bits : Z)            (* an IEEE double, by its bit pattern *)
| JStr (s : string)
| JArr (items : list json)
| JObj (fields : list (string * json)).   (* a dict, in insertion order *)

Fixpoint json_eqb (a b : json) {struct a} : bool :=
  match a, b with
  | JNull, JNull => true
  | JBool x, JBool y => Bool.eqb x y
  | JInt x, JInt y => Z.eqb x y
  | JFloat x, JFloat y => Z.eqb x y
  | JStr x, JStr y => String.eqb x y
  | JArr xs, JArr ys =>
      (fix go (xs ys : list json) {struct xs} : bool :=
         match xs, ys with
         | [], [] => true
         | x :: xs', y :: ys' => json_eqb x y && go xs' ys'
         | _, _ => false
         end) xs ys
  | JObj xs, JObj ys =>
      (fix go (xs ys : list (string * json)) {struct xs} : bool :=
         match xs, ys with
         | [], [] => true
         | (k, x) :: xs', (k', y) :: ys' =>
             String.eqb k k' && json_eqb x y && go xs' ys'
         | _, _ => false
         end) xs ys
  | _, _ => false
  end.

(** ** Python exceptions the code can meet (all are subclasses of
    [Exception], so every [except Exception] catches every one of them) *)

Inductive exn : Type :=
| ValueError (msg : string)
| KeyError (key : string)
| TypeError
| AttributeError
| ApiError (response_data : json)  (* Exception(f"API error: {response_data}") *)
| ClientError                      (* aiohttp: the exchange itself failed *)
| ContentError                     (* response.json() could not decode *)
| JSONDecodeError                  (* request.json() could not decode *)
| PyMongoError
| DuplicateKeyError
| HTTPException (status_code : Z) (detail : string).

Inductive result (A : Type) : Type :=
| Ok (a : A)
| Raised (e : exn).
Arguments Ok {A} a.
Arguments Raised {A} e.

(** ** The Python operations the handlers apply to decoded JSON *)

Module Py.

Fixpoint assoc (k : string) (fs : list (string * json)) : option json :=
  match fs with
  | [] => None
  | (k', v) :: fs' => if String.eqb k k' then Some v else assoc k fs'
  end.

(** [o.get(k, default)]: only a dict has [get]. *)
Definition get (o : json) (k : string) (default : json) : result json :=
  match o with
  | JObj fs => Ok (from_option id default (assoc k fs))
  | _ => Raised AttributeError
  end.

(** [s in t] for strings: [s] occurs in [t]. *)
Fixpoint occurs (s t : string) : bool :=
  String.prefix s t ||
  match t with
  | EmptyString => false
  | String _ t' => occurs s t'
  end.

Definition is_str (k : string) (j : json) : bool :=
  match j with JStr s => String.eqb s k | _ => false end.

(** [k in o] for a string [k]: key of a dict, element of a list,
    substring of a string; the other values are not containers. *)
Definition contains (k : string) (o : json) : result bool :=
  match o with
  | JObj fs => Ok (bool_decide (is_Some (assoc k fs)))
  | JArr items => Ok (existsb (is_str k) items)
  | JStr s => Ok (occurs k s)
  | _ => Raised TypeError
  end.

Fixpoint chars (s : string) : list json :=
  match s with
  | EmptyString => []
  | String c s' => JStr (String c EmptyString) :: chars s'
  end.

(** What [for x in o] runs through: the elements of a list, the keys of
    a dict, the characters of a string. *)
Definition iter (o : json) : result (list json) :=
  match o with
  | JArr items => Ok items
  | JObj fs => Ok (map (fun kv => JStr (fst kv)) fs)
  | JStr s => Ok (chars s)
  | _ => Raised TypeError
  end.

(** [x == "literal"]. *)
Definition eq_str (j : json) (k : string) : bool := is_str k j.

(** [str.strip()] and [str.lower()], on the ASCII range; the bytes of a
    non-ASCII character pass through unchanged. *)
Definition is_space (c : ascii) : bool :=
  let n := nat_of_ascii c in
  (((9 <=? n) && (n <=? 13)) || ((28 <=? n) && (n <=? 32)))%nat.

Fixpoint lstrip (s : string) : string :=
  match s with
  | EmptyString => EmptyString
  | String c s' => if is_space c then lstrip s' else s
  end.

Fixpoint rstrip (s : string) : string :=
  match s with
  | EmptyString => EmptyString
  | String c s' =>
      match rstrip s' with
      | EmptyString => if is_space c then EmptyString else String c EmptyString
      | r => String c r
      end
  end.

Definition strip (s : string) : string := rstrip (lstrip s).

Definition lower_char (c : ascii) : ascii :=
  let n := nat_of_ascii c in
  if ((65 <=? n) && (n <=? 90))%nat then ascii_of_nat (n + 32)%nat else c.

Fixpoint lower (s : string) : string :=
  match s with
  | EmptyString => EmptyString
  | String c s' => String (lower_char c) (lower s')
  end.

(** [j.strip()]: only a string has [strip]. *)
Definition strip_of (j : json) : result string :=
  match j with
  | JStr s => Ok (strip s)
  | _ => Raised AttributeError
  end.

(** [d[k]] on a [Dict[str, str]]. *)
Fixpoint index (d : list (string * string)) (k : string) : result string :=
  match d with
  | [] => Raised (KeyError k)
  | (k', v) :: d' => if String.eqb k k' then Ok v else index d' k
  end.

(** [d.get(k)] on a [Dict[str, str]]. *)
Fixpoint index_opt (d : list (string * string)) (k : string) : option string :=
  match d with
  | [] => None
  | (k', v) :: d' => if String.eqb k k' then Some v else index_opt d' k
  end.

(** [s.split(sep)] for a one-character separator. *)
Fixpoint split (sep : ascii) (s : string) : list string :=
  match s with
  | EmptyString => [EmptyString]
  | String c s' =>
      match split sep s' with
      | [] => [EmptyString]              (* unreachable: split is never empty *)
      | p :: ps =>
          if Ascii.eqb c sep then EmptyString :: p :: ps
          else String c p :: ps
      end
  end.

(** Truthiness of an [Optional[str]]. *)
Definition truthy (o : option string) : bool :=
  match o with
  | Some s => negb (String.eqb s EmptyString)
  | None => false
  end.

End Py.

(** ** The outside: HTTP exchanges, MongoDB documents, log lines *)

(** A value stored in a MongoDB document: decoded JSON, a [datetime], or
    the [ObjectId] the driver generates. *)
Inductive bson : Type :=
| BJson (j : json)
| BDate (t : Z)
| BOid (n : nat).

Definition bson_eqb (a b : bson) : bool :=
  match a, b with
  | BJson x, BJson y => json_eqb x y
  | BDate x, BDate y => Z.eqb x y
  | BOid x, BOid y => Nat.eqb x y
  | _, _ => false
  end.

(** A document is a dict from field names to values. *)
Abbreviation Doc := (gmap string bson).

Inductive level : Type := INFO | WARNING | ERROR.

(** One call of the logger: the level, the text of the f-string with [{}]
    for each formatted value, and the values (or the exception logged). *)
Inductive log_line : Type :=
| Log (lvl : level) (text : string) (args : list bson)
| LogExn (lvl : level) (text : string) (e : exn).

Record post : Type := mkPost {
  post_url : string;
  post_headers : list (string * string);
  post_json : json
}.

(** The provider's answer. [resp_json] is what [response.json()] evaluates
    to, [None] when it raises (the body is not JSON). *)
Record response : Type := mkResponse {
  resp_status : Z;
  resp_text : string;
  resp_json : option json
}.

Inductive outcome : Type :=
| NoResponse                 (* timeout, DNS, connection reset *)
| Response (r : response).

(** An incoming POST. [req_json] is what [request.json()] evaluates to,
    [None] when it raises. *)
Record request : Type := mkRequest {
  req_headers : list (string * string);
  req_body : string;
  req_json : option json
}.

Inductive http_response : Type :=
| PlainTextResponse (content : string) (status_code : Z)
| JSONResponse (content : json) (status_code : Z).

Definition status_of (r : http_response) : Z :=
  match r with
  | PlainTextResponse _ c => c
  | JSONResponse _ c => c
  end.

(** The two commands the message collection receives. *)
Inductive command : Type :=
| InsertOne (document : Doc)
| UpdateOne (message_id : json) (fields : list (string * bson)).

(** [app/config.py]: the settings the core reads. *)
Record Settings : Type := mkSettings {
  WHATSAPP_API_TOKEN : string;
  WHATSAPP_PHONE_NUMBER_ID : string;
  WEBHOOK_VERIFY_TOKEN : string;
  WHATSAPP_API_VERSION : string;
  WHATSAPP_API_BASE_URL : string
}.

(** Everything the code does not decide itself. *)
Record Env : Type := mkEnv {
  settings : Settings;
  (** the provider's answer to a POST, given the POSTs made before it *)
  provider : list post -> post -> outcome;
  (** the n-th reading of [datetime.utcnow()] *)
  utcnow : nat -> Z;
  (** whether the n-th database command goes through ([false]: the driver raises) *)
  mongo_up : nat -> command -> bool;
  (** whether the filter [{"message_id": v}] selects a document *)
  mongo_match : json -> Doc -> bool;
  (** [str(v)], as an f-string formats a value *)
  py_str : json -> string;
  (** [hmac.new(key, msg, hashlib.sha256).hexdigest()] *)
  hmac_sha256_hex : string -> string -> string
}.

Record World : Type := mkWorld {
  w_messages : list Doc;       (* Database._db.messages, in insertion order *)
  w_outbox : list post;        (* every POST attempted, oldest first *)
  w_log : list log_line;
  w_clock_reads : nat;
  w_db_commands : nat;
  w_next_oid : nat
}.

(** ** The monad: state passing, with Python's exceptions *)

Definition M (A : Type) : Type := World -> result A * World.

Definition ret {A} (a : A) : M A := fun w => (Ok a, w).

Definition bind {A B} (m : M A) (k : A -> M B) : M B :=
  fun w =>
    match m w with
    | (Ok a, w') => k a w'
    | (Raised e, w') => (Raised e, w')
    end.

Definition raise {A} (e : exn) : M A := fun w => (Raised e, w).

Definition lift {A} (r : result A) : M A := fun w => (r, w).

(** [try: body / except Exception as e: handler e]. What [body] did to the
    world before it raised stays done. *)
Definition try_except {A} (body : M A) (handler : exn -> M A) : M A :=
  fun w =>
    match body w with
    | (Ok a, w') => (Ok a, w')
    | (Raised e, w') => handler e w'
    end.

Declare Scope py_scope.
Delimit Scope py_scope with py.
Notation "x <- m ;; k" := (bind m (fun x => k))
  (at level 100, m at next level, right associativity) : py_scope.
Notation "m ;; k" := (bind m (fun _ => k))
  (at level 100, right associativity) : py_scope.
Local Open Scope py_scope.

(** [for x in xs: body x] *)
Fixpoint for_each {A} (xs : list A) (body : A -> M unit) : M unit :=
  match xs with
  | [] => ret tt
  | x :: xs' => body x ;; for_each xs' body
  end.

Definition logger (l : log_line) : M unit :=
  fun w =>
    (Ok tt,
     mkWorld (w_messages w) (w_outbox w) (w_log w ++ [l])
             (w_clock_reads w) (w_db_commands w) (w_next_oid w)).

Definition info (text : string) (args : list json) : M unit :=
  logger (Log INFO text (map BJson args)).
Definition warning (text : string) (args : list json) : M unit :=
  logger (Log WARNING text (map BJson args)).
Definition error (text : string) (args : list json) : M unit :=
  logger (Log ERROR text (map BJson args)).
Definition error_exc (text : string) (e : exn) : M unit :=
  logger (LogExn ERROR text e).

Definition nl : string := String (ascii_of_nat 10) EmptyString.

Section Bot.

Variable E : Env.

(** ** [app/services/whatsapp.py]: WhatsAppService *)

(** [app/config.py]: get_whatsapp_api_url *)
Definition get_whatsapp_api_url : string :=
  WHATSAPP_API_BASE_URL (settings E) +:+ "/" +:+
  WHATSAPP_API_VERSION (settings E) +:+ "/" +:+
  WHATSAPP_PHONE_NUMBER_ID (settings E).

Definition api_url : string := get_whatsapp_api_url.

Definition headers : list (string * string) :=
  [("Authorization", "Bearer " +:+ WHATSAPP_API_TOKEN (settings E));
   ("Content-Type", "application/json")].

(** [session.post(url, json=payload, headers=self.headers)]: the attempt is
    recorded whether or not the provider answers. *)
Definition session_post (url : string) (payload : json) : M response :=
  fun w =>
    let p := mkPost url headers payload in
    let w' := mkWorld (w_messages w) (w_outbox w ++ [p]) (w_log w)
                      (w_clock_reads w) (w_db_commands w) (w_next_oid w) in
    match provider E (w_outbox w) p with
    | NoResponse => (Raised ClientError, w')
    | Response r => (Ok r, w')
    end.

Definition response_json (r : response) : M json :=
  match resp_json r with
  | Some j => ret j
  | None => raise ContentError
  end.

Definition _send_request (url : string) (payload : json) : M json :=
  try_except
    (response <- session_post url payload ;;
     response_data <- response_json response ;;
     if negb (resp_status response =? 200)%Z then
       error "WhatsApp API error: {}" [response_data] ;;
       raise (ApiError response_data)
     else
       info "Message sent successfully: {}" [response_data] ;;
       ret response_data)
    (fun e =>
       error_exc "Error sending WhatsApp message: {}" e ;;
       raise e).

Definition text_payload (to : json) (message : string) (preview_url : bool) : json :=
  JObj [("messaging_product", JStr "whatsapp");
        ("recipient_type", JStr "individual");
        ("to", to);
        ("type", JStr "text");
        ("text", JObj [("preview_url", JBool preview_url);
                       ("body", JStr message)])].

Definition send_text_message (to : json) (message : string) (preview_url : bool)
  : M json :=
  let url := api_url +:+ "/messages" in
  _send_request url (text_payload to message preview_url).

(** A button is a [Dict[str, str]]. *)
Definition button_entry (btn : list (string * string)) : result json :=
  match Py.index btn "id" with
  | Raised e => Raised e
  | Ok id_ =>
      match Py.index btn "title" with
      | Raised e => Raised e
      | Ok title =>
          Ok (JObj [("type", JStr "reply");
                    ("reply", JObj [("id", JStr id_); ("title", JStr title)])])
      end
  end.

(** The list comprehension over [buttons]: stops at the first entry that
    raises. *)
Fixpoint button_entries (buttons : list (list (string * string)))
  : result (list json) :=
  match buttons with
  | [] => Ok []
  | btn :: rest =>
      match button_entry btn with
      | Raised e => Raised e
      | Ok b =>
          match button_entries rest with
          | Raised e => Raised e
          | Ok bs => Ok (b :: bs)
          end
      end
  end.

Definition with_header_footer (interactive_data : list (string * json))
  (header_text footer_text : option string) : list (string * json) :=
  let d1 :=
    if Py.truthy header_text then
      interactive_data ++
      [("header", JObj [("type", JStr "text");
                        ("text", JStr (default EmptyString header_text))])]
    else interactive_data in
  if Py.truthy footer_text then
    d1 ++ [("footer", JObj [("text", JStr (default EmptyString footer_text))])]
  else d1.

Definition interactive_payload (to : json) (interactive_data : list (string * json))
  : json :=
  JObj [("messaging_product", JStr "whatsapp");
        ("recipient_type", JStr "individual");
        ("to", to);
        ("type", JStr "interactive");
        ("interactive", JObj interactive_data)].

(** Everything [send_buttons] does before it calls [_send_request]. *)
Definition buttons_payload (to : json) (body_text : string)
  (buttons : list (list (string * string)))
  (header_text footer_text : option string) : result json :=
  if (3 <? length buttons)%nat then
    Raised (ValueError "Maximum 3 buttons allowed")
  else
    match button_entries buttons with
    | Raised e => Raised e
    | Ok entries =>
        let interactive_data :=
          [("type", JStr "button");
           ("body", JObj [("text", JStr body_text)]);
           ("action", JObj [("buttons", JArr entries)])] in
        Ok (interactive_payload to
              (with_header_footer interactive_data header_text footer_text))
    end.

Definition send_buttons (to : json) (body_text : string)
  (buttons : list (list (string * string)))
  (header_text footer_text : option string) : M json :=
  payload <- lift (buttons_payload to body_text buttons header_text footer_text) ;;
  let url := api_url +:+ "/messages" in
  _send_request url payload.

Definition list_payload (to : json) (body_text button_text : string)
  (sections : list json) (header_text footer_text : option string) : json :=
  let interactive_data :=
    [("type", JStr "list");
     ("body", JObj [("text", JStr body_text)]);
     ("action", JObj [("button", JStr button_text);
                      ("sections", JArr sections)])] in
  interactive_payload to
    (with_header_footer interactive_data header_text footer_text).

Definition send_list (to : json) (body_text button_text : string)
  (sections : list json) (header_text footer_text : option string) : M json :=
  let url := api_url +:+ "/messages" in
  _send_request url
    (list_payload to body_text button_text sections header_text footer_text).

Definition read_payload (message_id : json) : json :=
  JObj [("messaging_product", JStr "whatsapp");
        ("status", JStr "read");
        ("message_id", message_id)].

Definition mark_as_read (message_id : json) : M json :=
  let url := api_url +:+ "/messages" in
  _send_request url (read_payload message_id).

(** ** [app/services/database.py]: the message collection *)

Definition datetime_utcnow : M Z :=
  fun w =>
    (Ok (utcnow E (w_clock_reads w)),
     mkWorld (w_messages w) (w_outbox w) (w_log w)
             (S (w_clock_reads w)) (w_db_commands w) (w_next_oid w)).

(** A command reaches the server, or the driver raises. *)
Definition mongo_command (c : command) : M unit :=
  fun w =>
    let w' := mkWorld (w_messages w) (w_outbox w) (w_log w)
                      (w_clock_reads w) (S (w_db_commands w)) (w_next_oid w) in
    if mongo_up E (w_db_commands w) c then (Ok tt, w') else (Raised PyMongoError, w').

Definition has_id (i : bson) (d : Doc) : bool :=
  match d !! "_id" with
  | Some j => bson_eqb i j
  | None => false
  end.

(** [collection.insert_one(document)]: a document without [_id] gets a new
    [ObjectId]; a document is always appended, never merged with another. *)
Definition insert_one (document : Doc) : M bson :=
  mongo_command (InsertOne document) ;;
  fun w =>
    match document !! "_id" with
    | Some i =>
        if existsb (has_id i) (w_messages w) then (Raised DuplicateKeyError, w)
        else
          (Ok i,
           mkWorld (w_messages w ++ [document]) (w_outbox w) (w_log w)
                   (w_clock_reads w) (w_db_commands w) (w_next_oid w))
    | None =>
        let i := BOid (w_next_oid w) in
        (Ok i,
         mkWorld (w_messages w ++ [<["_id" := i]> document]) (w_outbox w) (w_log w)
                 (w_clock_reads w) (w_db_commands w) (S (w_next_oid w)))
    end.

Definition set_fields (fields : list (string * bson)) (d : Doc) : Doc :=
  fold_left (fun d kv => <[fst kv := snd kv]> d) fields d.

Definition unchanged_by (fields : list (string * bson)) (d : Doc) : bool :=
  forallb (fun kv => match d !! fst kv with
                     | Some v => bson_eqb v (snd kv)
                     | None => false
                     end) fields.

(** The first selected document gets the fields; the count is that of the
    documents the update really changed. *)
Fixpoint update_first (sel : Doc -> bool) (fields : list (string * bson))
  (ds : list Doc) : list Doc * nat :=
  match ds with
  | [] => ([], 0%nat)
  | d :: ds' =>
      if sel d then
        (set_fields fields d :: ds', if unchanged_by fields d then 0%nat else 1%nat)
      else
        let (ds'', n) := update_first sel fields ds' in (d :: ds'', n)
  end.

(** [collection.update_one({"message_id": message_id}, {"$set": fields})],
    returning [result.modified_count]. *)
Definition update_one (message_id : json) (fields : list (string * bson)) : M nat :=
  mongo_command (UpdateOne message_id fields) ;;
  fun w =>
    let (ds, n) := update_first (mongo_match E message_id) fields (w_messages w) in
    (Ok n,
     mkWorld ds (w_outbox w) (w_log w)
             (w_clock_reads w) (w_db_commands w) (w_next_oid w)).

Definition save_message (message_data : Doc) : M bson :=
  try_except
    (created_at <- datetime_utcnow ;;
     let message_data := <["created_at" := BDate created_at]> message_data in
     updated_at <- datetime_utcnow ;;
     let message_data := <["updated_at" := BDate updated_at]> message_data in
     inserted_id <- insert_one message_data ;;
     logger (Log INFO "Message saved: {}" [inserted_id]) ;;
     ret inserted_id)
    (fun e =>
       error_exc "Error saving message: {}" e ;;
       raise e).

Definition update_message_status (message_id status timestamp : json) : M bool :=
  try_except
    (updated_at <- datetime_utcnow ;;
     modified_count <-
       update_one message_id
         [("status", BJson status);
          ("status_timestamp", BJson timestamp);
          ("updated_at", BDate updated_at)] ;;
     if (0 <? modified_count)%nat then
       info "Message {} status updated to {}" [message_id; status] ;;
       ret true
     else ret false)
    (fun e =>
       error_exc "Error updating message status: {}" e ;;
       ret false).

(** ** [app/services/message_handler.py]: MessageHandler *)

Definition greeting : string :=
  "👋 Hello! Welcome to WhatsApp Bot Starter." +:+ nl +:+ nl +:+
  "Type 'help' to see available commands.".

Definition help_message : string :=
  nl +:+ "🤖 *WhatsApp Bot Commands*" +:+ nl +:+ nl +:+
  "• hello - Greet the bot" +:+ nl +:+
  "• help - Show this help message" +:+ nl +:+
  "• menu - Show interactive menu" +:+ nl +:+
  "• buttons - Demo button message" +:+ nl +:+
  "• info - Get bot information" +:+ nl +:+ nl +:+
  "Type any command to get started!" +:+ nl +:+ "            ".

Definition info_message : string :=
  nl +:+ "ℹ️ *Bot Information*" +:+ nl +:+ nl +:+
  "Name: WhatsApp Bot Starter" +:+ nl +:+
  "Version: 1.0.0" +:+ nl +:+
  "Built by: BotDev Community" +:+ nl +:+ nl +:+
  "This is a production-ready template for building WhatsApp bots using FastAPI and WhatsApp Cloud API." +:+
  nl +:+ nl +:+
  "GitHub: github.com/botdev-community" +:+ nl +:+ "            ".

Definition menu_row (n : string) : json :=
  JObj [("id", JStr ("option_" +:+ n));
        ("title", JStr ("Option " +:+ n));
        ("description", JStr ("Description for option " +:+ n))].

Definition menu_sections : list json :=
  [JObj [("title", JStr "Main Menu");
         ("rows", JArr [menu_row "1"; menu_row "2"; menu_row "3"])]].

Definition demo_buttons : list (list (string * string)) :=
  [[("id", "btn_1"); ("title", "Button 1")];
   [("id", "btn_2"); ("title", "Button 2")];
   [("id", "btn_3"); ("title", "Button 3")]].

Definition handle_text_message (message from_number : json) : M unit :=
  text_obj <- lift (Py.get message "text" (JObj [])) ;;
  body <- lift (Py.get text_obj "body" (JStr EmptyString)) ;;
  text <- lift (Py.strip_of body) ;;
  let text_lower := Py.lower text in
  info "Received text: {}" [JStr text] ;;
  if existsb (String.eqb text_lower) ["hello"; "hi"; "hey"] then
    send_text_message from_number greeting false ;; ret tt
  else if String.eqb text_lower "help" then
    send_text_message from_number help_message false ;; ret tt
  else if String.eqb text_lower "menu" then
    send_list from_number "Select an option from the menu:" "View Options"
      menu_sections None None ;; ret tt
  else if String.eqb text_lower "buttons" then
    send_buttons from_number "Choose an action:" demo_buttons
      (Some "Demo Buttons") (Some "Select one option") ;; ret tt
  else if String.eqb text_lower "info" then
    send_text_message from_number info_message false ;; ret tt
  else
    send_text_message from_number
      ("I received your message: '" +:+ text +:+ "'" +:+ nl +:+ nl +:+
       "Type 'help' to see available commands.") false ;; ret tt.

Definition handle_image_message (message from_number : json) : M unit :=
  image <- lift (Py.get message "image" (JObj [])) ;;
  caption <- lift (Py.get image "caption" (JStr EmptyString)) ;;
  info "Received image with caption: {}" [caption] ;;
  send_text_message from_number
    "📸 I received your image! Image processing is not implemented yet." false ;;
  ret tt.

Definition handle_document_message (message from_number : json) : M unit :=
  document <- lift (Py.get message "document" (JObj [])) ;;
  filename <- lift (Py.get document "filename" (JStr "unknown")) ;;
  info "Received document: {}" [filename] ;;
  send_text_message from_number
    ("📄 I received your document: " +:+ py_str E filename) false ;;
  ret tt.

Definition handle_audio_message (message from_number : json) : M unit :=
  info "Received audio message" [] ;;
  send_text_message from_number "🎵 I received your audio message!" false ;;
  ret tt.

Definition handle_video_message (message from_number : json) : M unit :=
  info "Received video message" [] ;;
  send_text_message from_number "🎥 I received your video!" false ;;
  ret tt.

Definition handle_location_message (message from_number : json) : M unit :=
  location <- lift (Py.get message "location" (JObj [])) ;;
  latitude <- lift (Py.get location "latitude" JNull) ;;
  longitude <- lift (Py.get location "longitude" JNull) ;;
  info "Received location: {}, {}" [latitude; longitude] ;;
  send_text_message from_number
    ("📍 I received your location:" +:+ nl +:+ "Lat: " +:+ py_str E latitude +:+
     nl +:+ "Lon: " +:+ py_str E longitude) false ;;
  ret tt.

Definition handle_interactive_message (message from_number : json) : M unit :=
  interactive <- lift (Py.get message "interactive" (JObj [])) ;;
  interactive_type <- lift (Py.get interactive "type" JNull) ;;
  if Py.eq_str interactive_type "button_reply" then
    button_reply <- lift (Py.get interactive "button_reply" (JObj [])) ;;
    button_id <- lift (Py.get button_reply "id" JNull) ;;
    button_title <- lift (Py.get button_reply "title" JNull) ;;
    info "Button clicked: {} - {}" [button_id; button_title] ;;
    send_text_message from_number
      ("You clicked: " +:+ py_str E button_title) false ;;
    ret tt
  else if Py.eq_str interactive_type "list_reply" then
    list_reply <- lift (Py.get interactive "list_reply" (JObj [])) ;;
    list_id <- lift (Py.get list_reply "id" JNull) ;;
    list_title <- lift (Py.get list_reply "title" JNull) ;;
    info "List item selected: {} - {}" [list_id; list_title] ;;
    send_text_message from_number
      ("You selected: " +:+ py_str E list_title) false ;;
    ret tt
  else ret tt.

Definition message_record (message_id from_number message_type timestamp message : json)
  : Doc :=
  <["data" := BJson message]>
  (<["timestamp" := BJson timestamp]>
  (<["type" := BJson message_type]>
  (<["from" := BJson from_number]>
  (<["message_id" := BJson message_id]> ∅)))).

Definition process_message (message value : json) : M unit :=
  try_except
    (message_type <- lift (Py.get message "type" JNull) ;;
     from_number <- lift (Py.get message "from" JNull) ;;
     message_id <- lift (Py.get message "id" JNull) ;;
     timestamp <- lift (Py.get message "timestamp" JNull) ;;
     info "Processing {} message from {}" [message_type; from_number] ;;
     mark_as_read message_id ;;
     save_message
       (message_record message_id from_number message_type timestamp message) ;;
     if Py.eq_str message_type "text" then
       handle_text_message message from_number
     else if Py.eq_str message_type "image" then
       handle_image_message message from_number
     else if Py.eq_str message_type "document" then
       handle_document_message message from_number
     else if Py.eq_str message_type "audio" then
       handle_audio_message message from_number
     else if Py.eq_str message_type "video" then
       handle_video_message message from_number
     else if Py.eq_str message_type "location" then
       handle_location_message message from_number
     else if Py.eq_str message_type "interactive" then
       handle_interactive_message message from_number
     else
       warning "Unsupported message type: {}" [message_type])
    (fun e => error_exc "Error processing message: {}" e).

Definition process_status (status : json) : M unit :=
  try_except
    (message_id <- lift (Py.get status "id" JNull) ;;
     status_type <- lift (Py.get status "status" JNull) ;;
     timestamp <- lift (Py.get status "timestamp" JNull) ;;
     info "Message {} status: {}" [message_id; status_type] ;;
     update_message_status message_id status_type timestamp ;;
     ret tt)
    (fun e => error_exc "Error processing status: {}" e).

(** ** [app/routers/webhook.py] *)

Definition verify_webhook (hub_mode hub_verify_token hub_challenge : string)
  : M http_response :=
  info "Webhook verification request received: mode={}" [JStr hub_mode] ;;
  if negb (String.eqb hub_mode "subscribe") then
    warning "Invalid hub.mode: {}" [JStr hub_mode] ;;
    raise (HTTPException 400 "Invalid hub.mode")
  else if negb (String.eqb hub_verify_token (WEBHOOK_VERIFY_TOKEN (settings E))) then
    warning "Webhook verification failed: Invalid token" [] ;;
    raise (HTTPException 403 "Invalid verify token")
  else
    info "Webhook verified successfully" [] ;;
    ret (PlainTextResponse hub_challenge 200).

Definition request_json (req : request) : M json :=
  match req_json req with
  | Some j => ret j
  | None => raise JSONDecodeError
  end.

Definition status_ok : http_response :=
  JSONResponse (JObj [("status", JStr "ok")]) 200.
Definition status_error : http_response :=
  JSONResponse (JObj [("status", JStr "error")]) 200.

(** The [try] block of [receive_message]. *)
Definition receive_message_body (req : request) : M http_response :=
  body <- request_json req ;;
  info "Received webhook: {}" [body] ;;
  has_entry <- lift (Py.contains "entry" body) ;;
  if negb has_entry then
    warning "No entry in webhook body" [] ;;
    ret status_ok
  else
    entries <- lift (Py.get body "entry" (JArr [])) ;;
    entries <- lift (Py.iter entries) ;;
    for_each entries (fun entry =>
      changes <- lift (Py.get entry "changes" (JArr [])) ;;
      changes <- lift (Py.iter changes) ;;
      for_each changes (fun change =>
        value <- lift (Py.get change "value" (JObj [])) ;;
        has_messages <- lift (Py.contains "messages" value) ;;
        (if has_messages then
           messages <- lift (Py.get value "messages" (JArr [])) ;;
           messages <- lift (Py.iter messages) ;;
           for_each messages (fun message => process_message message value)
         else ret tt) ;;
        has_statuses <- lift (Py.contains "statuses" value) ;;
        (if has_statuses then
           statuses <- lift (Py.get value "statuses" (JArr [])) ;;
           statuses <- lift (Py.iter statuses) ;;
           for_each statuses (fun status => process_status status)
         else ret tt))) ;;
    ret status_ok.

Definition receive_message (req : request) : M http_response :=
  try_except
    (receive_message_body req)
    (fun e =>
       error_exc "Error processing webhook: {}" e ;;
       ret status_error).

(** [hmac.compare_digest] on two [str]: refuses non-ASCII text. *)
Definition is_ascii (s : string) : bool :=
  forallb (fun c => (nat_of_ascii c <? 128)%nat) (list_ascii_of_string s).

Definition compare_digest (a b : string) : result bool :=
  if is_ascii a && is_ascii b then Ok (String.eqb a b) else Raised TypeError.

Definition verify_signature (payload : string) (signature : option string) : M bool :=
  if negb (Py.truthy signature) then ret false
  else
    try_except
      (match Py.split "=" (default EmptyString signature) with
       | [hash_type; hash_value] =>
           if negb (String.eqb hash_type "sha256") then ret false
           else
             let expected_signature :=
               hmac_sha256_hex E (WHATSAPP_API_TOKEN (settings E)) payload in
             lift (compare_digest expected_signature hash_value)
       | _ => raise (ValueError "wrong number of values to unpack")
       end)
      (fun e =>
         error_exc "Error verifying signature: {}" e ;;
         ret false).

(** [request.headers.get("X-Hub-Signature-256")], as the commented-out lines
    of [receive_message] read it. *)
Definition signature_header (req : request) : option string :=
  Py.index_opt (req_headers req) "X-Hub-Signature-256".

(** What the framework sends for a handler's outcome: the response the
    handler returned, the status an [HTTPException] carries, 500 for any
    other exception that leaves the handler. *)
Definition serve (handler : M http_response) (w : World) : http_response * World :=
  match handler w with
  | (Ok r, w') => (r, w')
  | (Raised (HTTPException status_code detail), w') =>
      (JSONResponse (JObj [("detail", JStr detail)]) status_code, w')
  | (Raised _, w') => (PlainTextResponse "Internal Server Error" 500, w')
  end.

Definition GET_webhook (hub_mode hub_verify_token hub_challenge : string)
  : World -> http_response * World :=
  serve (verify_webhook hub_mode hub_verify_token hub_challenge).

Definition POST_webhook (req : request) : World -> http_response * World :=
  serve (receive_message req).

End Bot.

(** ** The specification's view of a delivery

    The specification describes the POST handler as a normalizer that
    flattens the envelope into a sequence of events, and a router that
    handles them one after the other.  The code has no such stage of its
    own: [receive_message] walks the envelope and calls the handlers as it
    goes.  The definitions below follow the specification's words; the
    theorems compare them with the code. *)

Inductive event : Type :=
| MessageReceived (message value : json)
| StatusUpdate (status : json).

Definition route (E : Env) (ev : event) : M unit :=
  match ev with
  | MessageReceived message value => process_message E message value
  | StatusUpdate status => process_status E status
  end.

Definition field (k : string) (default : json) (o : json) : json :=
  match o with
  | JObj fs => from_option id default (Py.assoc k fs)
  | _ => default
  end.

Definition items (j : json) : list json :=
  match j with
  | JArr l => l
  | _ => []
  end.

(** Messages before statuses within a change, each in array order. *)
Definition change_events (change : json) : list event :=
  let value := field "value" (JObj []) change in
  map (fun message => MessageReceived message value)
      (items (field "messages" (JArr []) value)) ++
  map StatusUpdate (items (field "statuses" (JArr []) value)).

(** Entries in array order, changes in array order. *)
Definition entry_events (entry : json) : list event :=
  flat_map change_events (items (field "changes" (JArr []) entry)).

Definition normalize (body : json) : list event :=
  flat_map entry_events (items (field "entry" (JArr []) body)).

Definition has_key (k : string) (o : json) : bool :=
  match o with
  | JObj fs => bool_decide (is_Some (Py.assoc k fs))
  | _ => false
  end.

(** The handler's work on a decoded body, as the specification words it:
    normalize, then route each event in order, then acknowledge. *)
Definition deliver (E : Env) (body : json) : M http_response :=
  info "Received webhook: {}" [body] ;;
  (if has_key "entry" body then ret tt
   else warning "No entry in webhook body" []) ;;
  for_each (normalize body) (route E) ;;
  ret status_ok.

(** The provider's envelope: an object whose [entry], when present, is an
    array of objects, whose [changes], when present, are arrays of objects,
    whose [value], when present, is an object, whose [messages] and
    [statuses], when present, are arrays. *)
Definition absent_or (k : string) (shape : json -> bool) (o : json) : bool :=
  match o with
  | JObj fs =>
      match Py.assoc k fs with
      | None => true
      | Some v => shape v
      end
  | _ => false
  end.

Definition array_of (shape : json -> bool) (j : json) : bool :=
  match j with
  | JArr l => forallb shape l
  | _ => false
  end.

Definition value_shape (value : json) : bool :=
  absent_or "messages" (array_of (fun _ => true)) value &&
  absent_or "statuses" (array_of (fun _ => true)) value.

Definition change_shape (change : json) : bool :=
  absent_or "value" value_shape change.

Definition entry_shape (entry : json) : bool :=
  absent_or "changes" (array_of change_shape) entry.

Definition envelope (body : json) : bool :=
  absent_or "entry" (array_of entry_shape) body.

(** The message types [process_message] has a handler for. *)
Definition recognized (message_type : json) : bool :=
  existsb (Py.eq_str message_type)
    ["text"; "image"; "document"; "audio"; "video"; "location"; "interactive"].

(** ** Reading a wire payload back *)

Definition interactive_of (payload : json) : json :=
  field "interactive" JNull payload.

(** [payload["interactive"]["action"]["buttons"]] *)
Definition payload_buttons (payload : json) : list json :=
  items (field "buttons" JNull (field "action" JNull (interactive_of payload))).

Definition is_list_payload (payload : json) : bool :=
  Py.eq_str (field "type" JNull payload) "interactive" &&
  Py.eq_str (field "type" JNull (interactive_of payload)) "list".

(** [payload["interactive"]["action"]["sections"]] *)
Definition payload_sections (payload : json) : list json :=
  items (field "sections" JNull (field "action" JNull (interactive_of payload))).

Definition row_ids (section : json) : list json :=
  map (field "id" JNull) (items (field "rows" JNull section)).

Definition list_intents (outbox : list post) : list json :=
  List.filter is_list_payload (map post_json outbox).

(** The documents of a collection that carry a given [message_id]. *)
Definition match_message_id (v : json) (d : Doc) : bool :=
  match d !! "message_id" with
  | Some (BJson x) => json_eqb x v
  | _ => false
  end.

Definition with_message_id (message_id : json) (ds : list Doc) : list Doc :=
  List.filter (match_message_id message_id) ds.

(** A button that has both keys the builder reads. *)
Definition keyed (btn : list (string * string)) : bool :=
  match Py.index btn "id", Py.index btn "title" with
  | Ok _, Ok _ => true
  | _, _ => false
  end.

(** The document [save_message] hands to the collection: the caller's
    fields, the two time stamps, and the driver's [_id]. *)
Definition stamped (message_data : Doc) (created_at updated_at : Z) (oid : nat) : Doc :=
  <["_id" := BOid oid]>
    (<["updated_at" := BDate updated_at]>
       (<["created_at" := BDate created_at]> message_data)).

(** The result of a send, by the provider's answer. *)
Definition sent (answer : outcome) : result json :=
  match answer with
  | NoResponse => Raised ClientError
  | Response r =>
      match resp_json r with
      | None => Raised ContentError
      | Some response_data =>
          if (resp_status r =? 200)%Z then Ok response_data
          else Raised (ApiError response_data)
      end
  end.

Definition is_ok {A} (r : result A) : bool :=
  match r with
  | Ok _ => true
  | Raised _ => false
  end.

(** ** Sample surroundings, for the concrete runs *)

Definition sample_settings : Settings :=
  mkSettings "EAAG-token" "106540352242922" "my-verify-token" "v18.0"
             "https://graph.facebook.com".

Definition accepted : response :=
  mkResponse 200 "{}" (Some (JObj [])).

Definition created : response :=
  mkResponse 201 "{}" (Some (JObj [])).

Definition show (j : json) : string :=
  match j with
  | JStr s => s
  | JNull => "None"
  | _ => "?"
  end.

Definition env_with (answer : outcome) : Env :=
  mkEnv sample_settings (fun _ _ => answer) (fun n => Z.of_nat n)
        (fun _ _ => true) match_message_id show (fun _ _ => "00").

(** The provider accepts every POST. *)
Definition env_up : Env := env_with (Response accepted).
(** No POST gets an answer. *)
Definition env_down : Env := env_with NoResponse.
(** The provider answers 201 Created, with a JSON body. *)
Definition env_201 : Env := env_with (Response created).

Definition world0 : World := mkWorld [] [] [] 0 0 0.

Definition text_message (body : string) : json :=
  JObj [("from", JStr "15550001111");
        ("id", JStr "wamid.test123");
        ("timestamp", JStr "1234567890");
        ("type", JStr "text");
        ("text", JObj [("body", JStr body)])].

Definition sticker_message : json :=
  JObj [("from", JStr "15550001111");
        ("id", JStr "wamid.test456");
        ("timestamp", JStr "1234567891");
        ("type", JStr "sticker")].

Definition sample_status : json :=
  JObj [("id", JStr "wamid.unknown");
        ("status", JStr "delivered");
        ("timestamp", JStr "1234567899")].

Definition value_of (messages statuses : list json) : json :=
  JObj [("messaging_product", JStr "whatsapp");
        ("messages", JArr messages);
        ("statuses", JArr statuses)].

Definition delivery_of (messages statuses : list json) : json :=
  JObj [("entry",
         JArr [JObj [("id", JStr "123456789");
                     ("changes",
                      JArr [JObj [("value", value_of messages statuses);
                                  ("field", JStr "messages")]])]])].

Definition request_of (body : json) : request :=
  mkRequest [("Content-Type", "application/json")] "" (Some body).

Definition menu_request : request :=
  request_of (delivery_of [text_message "menu"] []).

Definition hello_request : request :=
  request_of (delivery_of [text_message "hello"] []).

(** The record process_message builds for the sample text message. *)
Definition sample_record : Doc :=
  message_record (JStr "wamid.test123") (JStr "15550001111") (JStr "text")
                 (JStr "1234567890") (text_message "hello").

(** The world after the provider delivered the same message twice. *)
Definition redelivered : World :=
  snd (POST_webhook env_up hello_request
         (snd (POST_webhook env_up hello_request world0))).

(** A world whose collection holds one message. *)
Definition world_one : World :=
  snd (save_message env_up sample_record world0).

(** ** The rest of the outbound client and of the message collection *)

Section Rest.

Variable E : Env.

(** Whether the n-th database command, a read, goes through ([false]: the
    driver raises). *)
Variable mongo_read_up : nat -> bool.

(** Everything [send_image] does before it calls [_send_request]. *)
Definition image_payload (to : json) (image_url image_id caption : option string)
  : result json :=
  let chosen :=
    if Py.truthy image_url then
      Ok [("link", JStr (default EmptyString image_url))]
    else if Py.truthy image_id then
      Ok [("id", JStr (default EmptyString image_id))]
    else Raised (ValueError "Either image_url or image_id must be provided") in
  match chosen with
  | Raised e => Raised e
  | Ok image_data =>
      let image_data :=
        if Py.truthy caption then
          image_data ++ [("caption", JStr (default EmptyString caption))]
        else image_data in
      Ok (JObj [("messaging_product", JStr "whatsapp");
                ("recipient_type", JStr "individual");
                ("to", to);
                ("type", JStr "image");
                ("image", JObj image_data)])
  end.

Definition send_image (to : json) (image_url image_id caption : option string)
  : M json :=
  let url := api_url E +:+ "/messages" in
  payload <- lift (image_payload to image_url image_id caption) ;;
  _send_request E url payload.

(** Everything [send_document] does before it calls [_send_request]. *)
Definition document_payload (to : json)
  (document_url document_id filename caption : option string) : result json :=
  let chosen :=
    if Py.truthy document_url then
      Ok [("link", JStr (default EmptyString document_url))]
    else if Py.truthy document_id then
      Ok [("id", JStr (default EmptyString document_id))]
    else Raised (ValueError "Either document_url or document_id must be provided") in
  match chosen with
  | Raised e => Raised e
  | Ok document_data =>
      let document_data :=
        if Py.truthy filename then
          document_data ++ [("filename", JStr (default EmptyString filename))]
        else document_data in
      let document_data :=
        if Py.truthy caption then
          document_data ++ [("caption", JStr (default EmptyString caption))]
        else document_data in
      Ok (JObj [("messaging_product", JStr "whatsapp");
                ("recipient_type", JStr "individual");
                ("to", to);
                ("type", JStr "document");
                ("document", JObj document_data)])
  end.

Definition send_document (to : json)
  (document_url document_id filename caption : option string) : M json :=
  let url := api_url E +:+ "/messages" in
  payload <- lift (document_payload to document_url document_id filename caption) ;;
  _send_request E url payload.

(** [components] is an [Optional[List[Dict]]]: [None] and the empty list
    are both falsy. *)
Definition template_payload (to : json) (template_name language_code : string)
  (components : option (list json)) : json :=
  let template :=
    [("name", JStr template_name);
     ("language", JObj [("code", JStr language_code)])] in
  let template :=
    match components with
    | Some (c :: cs) => template ++ [("components", JArr (c :: cs))]
    | _ => template
    end in
  JObj [("messaging_product", JStr "whatsapp");
        ("recipient_type", JStr "individual");
        ("to", to);
        ("type", JStr "template");
        ("template", JObj template)].

Definition send_template (to : json) (template_name language_code : string)
  (components : option (list json)) : M json :=
  let url := api_url E +:+ "/messages" in
  _send_request E url (template_payload to template_name language_code components).

(** A read reaches the server, or the driver raises. *)
Definition mongo_read : M unit :=
  fun w =>
    let w' := mkWorld (w_messages w) (w_outbox w) (w_log w)
                      (w_clock_reads w) (S (w_db_commands w)) (w_next_oid w) in
    if mongo_read_up (w_db_commands w) then (Ok tt, w') else (Raised PyMongoError, w').

(** [collection.find_one({"message_id": message_id})]: the first selected
    document in the collection's order, or [None]. *)
Definition find_one (message_id : json) : M (option Doc) :=
  mongo_read ;;
  fun w => (Ok (List.find (mongo_match E message_id) (w_messages w)), w).

Definition get_message (message_id : json) : M (option Doc) :=
  try_except
    (message <- find_one message_id ;;
     ret message)
    (fun e =>
       error_exc "Error retrieving message: {}" e ;;
       ret None).

End Rest.

(** ** [app/services/database.py]: the user collection

    The users live in a collection of their own, so the state is the
    [World] and that collection. *)

Record Store : Type := mkStore {
  st_world : World;
  st_users : list Doc        (* Database._db.users, in insertion order *)
}.

Definition U (A : Type) : Type := Store -> result A * Store.

Definition uret {A} (a : A) : U A := fun s => (Ok a, s).

Definition ubind {A B} (m : U A) (k : A -> U B) : U B :=
  fun s =>
    match m s with
    | (Ok a, s') => k a s'
    | (Raised e, s') => (Raised e, s')
    end.

Definition uraise {A} (e : exn) : U A := fun s => (Raised e, s).

Definition utry_except {A} (body : U A) (handler : exn -> U A) : U A :=
  fun s =>
    match body s with
    | (Ok a, s') => (Ok a, s')
    | (Raised e, s') => handler e s'
    end.

(** A computation on the world alone (the clock, the log), run in a store. *)
Definition in_world {A} (m : M A) : U A :=
  fun s =>
    let (r, w') := m (st_world s) in (r, mkStore w' (st_users s)).

Declare Scope users_scope.
Delimit Scope users_scope with users.
Notation "x <- m ;; k" := (ubind m (fun x => k))
  (at level 100, m at next level, right associativity) : users_scope.
Notation "m ;; k" := (ubind m (fun _ => k))
  (at level 100, right associativity) : users_scope.

Section Users.

Local Open Scope users_scope.

Variable E : Env.

(** Whether the n-th database command, one on the user collection, goes
    through ([false]: the driver raises). *)
Variable users_up : nat -> bool.

(** Whether the filter [{"phone_number": v}] selects a document. *)
Variable users_match : bson -> Doc -> bool.

Definition users_command : U unit :=
  fun s =>
    let w := st_world s in
    let s' := mkStore (mkWorld (w_messages w) (w_outbox w) (w_log w)
                               (w_clock_reads w) (S (w_db_commands w)) (w_next_oid w))
                      (st_users s) in
    if users_up (w_db_commands w) then (Ok tt, s') else (Raised PyMongoError, s').

(** [users.find_one({"phone_number": phone_number})] *)
Definition users_find_one (phone_number : bson) : U (option Doc) :=
  users_command ;;
  fun s => (Ok (List.find (users_match phone_number) (st_users s)), s).

(** [$set] may name [_id] only with the value the document has. *)
Definition moves_id (fields : list (string * bson)) (d : Doc) : bool :=
  existsb (fun kv => String.eqb (fst kv) "_id" &&
                     negb (match d !! "_id" with
                           | Some i => bson_eqb i (snd kv)
                           | None => false
                           end)) fields.

(** [users.update_one({"phone_number": phone_number}, {"$set": fields})],
    returning [result.modified_count]. *)
Definition users_update_one (phone_number : bson) (fields : list (string * bson))
  : U nat :=
  users_command ;;
  fun s =>
    match List.find (users_match phone_number) (st_users s) with
    | Some d =>
        if moves_id fields d then (Raised PyMongoError, s)
        else
          let (ds, n) := update_first (users_match phone_number) fields (st_users s) in
          (Ok n, mkStore (st_world s) ds)
    | None => (Ok 0%nat, s)
    end.

(** [users.insert_one(document)] *)
Definition users_insert_one (document : Doc) : U bson :=
  users_command ;;
  fun s =>
    let w := st_world s in
    match document !! "_id" with
    | Some i =>
        if existsb (has_id i) (st_users s) then (Raised DuplicateKeyError, s)
        else (Ok i, mkStore w (st_users s ++ [document]))
    | None =>
        let i := BOid (w_next_oid w) in
        (Ok i,
         mkStore (mkWorld (w_messages w) (w_outbox w) (w_log w)
                          (w_clock_reads w) (w_db_commands w) (S (w_next_oid w)))
                 (st_users s ++ [<["_id" := i]> document]))
    end.

(** [d[k]] on a document. *)
Definition doc_index (d : Doc) (k : string) : U bson :=
  match d !! k with
  | Some v => uret v
  | None => uraise (KeyError k)
  end.

(** Truthiness of what [find_one] returned: a document with a field. *)
Definition found (o : option Doc) : bool :=
  match o with
  | Some d => negb (Nat.eqb (size d) 0)
  | None => false
  end.

Definition save_user (user_data : Doc) : U bson :=
  utry_except
    (let phone_number := default (BJson JNull) (user_data !! "phone_number") in
     existing_user <- users_find_one phone_number ;;
     if found existing_user then
       updated_at <- in_world (datetime_utcnow E) ;;
       let user_data := <["updated_at" := BDate updated_at]> user_data in
       users_update_one phone_number (map_to_list user_data) ;;
       in_world (logger (Log INFO "User updated: {}" [phone_number])) ;;
       doc_index (default ∅ existing_user) "_id"
     else
       created_at <- in_world (datetime_utcnow E) ;;
       let user_data := <["created_at" := BDate created_at]> user_data in
       updated_at <- in_world (datetime_utcnow E) ;;
       let user_data := <["updated_at" := BDate updated_at]> user_data in
       inserted_id <- users_insert_one user_data ;;
       in_world (logger (Log INFO "User created: {}" [phone_number])) ;;
       uret inserted_id)
    (fun e =>
       in_world (error_exc "Error saving user: {}" e) ;;
       uraise e).

Definition get_user (phone_number : bson) : U (option Doc) :=
  utry_except
    (user <- users_find_one phone_number ;;
     uret user)
    (fun e =>
       in_world (error_exc "Error retrieving user: {}" e) ;;
       uret None).


End Users.


(** ** Vocabulary of the proofs *)

(** A computation that returns normally from every world. *)
Definition total (m : M unit) : Prop :=
  forall w, exists w', m w = (Ok tt, w').

(** Runs the monad's combinators and the world's projections, and nothing
    else. *)
Ltac run :=
  cbv beta iota zeta delta
    [bind ret raise lift try_except logger info warning error error_exc];
  cbn [w_messages w_outbox w_log w_clock_reads w_db_commands w_next_oid fst snd].

(** [sep.join(parts)] for a one-character separator. *)
Fixpoint join (sep : ascii) (parts : list string) : string :=
  match parts with
  | [] => EmptyString
  | [p] => p
  | p :: ps => p +:+ String sep (join sep ps)
  end.

(** The text of a [hexdigest()]: lower-case hexadecimal digits. *)
Definition is_hex_char (c : ascii) : bool :=
  let n := nat_of_ascii c in
  (((48 <=? n) && (n <=? 57)) || ((97 <=? n) && (n <=? 102)))%nat.

Fixpoint is_hex (s : string) : bool :=
  match s with
  | EmptyString => true
  | String c s' => is_hex_char c && is_hex s'
  end.


(** A payload that marks a message as read. *)
Definition is_receipt (payload : json) : bool :=
  Py.eq_str (field "status" JNull payload) "read".

(** A POST that goes to the messages endpoint with the service's headers,
    names [to] as its recipient and is no read receipt. *)
Definition addressed (E : Env) (to : json) (p : post) : Prop :=
  post_url p = api_url E +:+ "/messages" /\
  post_headers p = headers E /\
  field "to" JNull (post_json p) = to /\
  is_receipt (post_json p) = false.

(** The read receipts a sequence of events calls for: one for each message
    that is an object, in the sequence's order. *)
Definition receipts_of (events : list event) : list json :=
  flat_map (fun ev =>
              match ev with
              | MessageReceived (JObj fs) _ =>
                  [read_payload (field "id" JNull (JObj fs))]
              | _ => []
              end) events.

Definition count_messages (events : list event) : nat :=
  length (List.filter (fun ev => match ev with
                                 | MessageReceived _ _ => true
                                 | StatusUpdate _ => false
                                 end) events).

(** A computation that POSTs at most [n] times, each time to [to], and
    leaves the collection alone. *)
Definition emits {A} (E : Env) (to : json) (n : nat) (m : M A) : Prop :=
  forall w, exists posts,
    w_outbox (snd (m w)) = w_outbox w ++ posts /\
    (length posts <= n)%nat /\
    Forall (addressed E to) posts /\
    w_messages (snd (m w)) = w_messages w.



(** [message.get("text", {}).get("body", "")] *)
Definition text_body (message : json) : result json :=
  match Py.get message "text" (JObj []) with
  | Ok text_obj => Py.get text_obj "body" (JStr EmptyString)
  | Raised e => Raised e
  end.



(** Whether a document's field holds a given value. *)
Definition field_is (k : string) (v : bson) (d : Doc) : bool :=
  match d !! k with
  | Some x => bson_eqb x v
  | None => false
  end.

(** Runs the combinators of the store monad and the projections. *)
Ltac urun :=
  cbv beta iota zeta delta
    [ubind uret uraise utry_except in_world bind ret raise lift try_except
     logger info warning error error_exc datetime_utcnow];
  cbn [st_world st_users
       w_messages w_outbox w_log w_clock_reads w_db_commands w_next_oid fst snd].


(** Sample users, for the concrete runs. *)
Definition sample_user : Doc :=
  <["name" := BJson (JStr "Ada")]>
    (<["phone_number" := BJson (JStr "15550001111")]> ∅).

Definition always_up (n : nat) : bool := true.

Definition store0 : Store := mkStore world0 [].

(** A store that holds the sample user. *)
Definition store_one : Store :=
  snd (save_user env_up always_up (field_is "phone_number") sample_user store0).

Definition number_message : json :=
  JObj [("from", JStr "15550001111");
        ("id", JStr "wamid.test789");
        ("type", JStr "text");
        ("text", JObj [("body", JInt 42)])].


(** A send that reaches the network: one POST to the messages endpoint with
    the service's headers, whose payload names the product and the
    recipient, and whose result is the one the provider's answer gives. *)
Definition posts_once (E : Env) (to : json) (m : M json) : Prop :=
  forall w, exists payload,
    let p := mkPost (api_url E +:+ "/messages") (headers E) payload in
    w_outbox (snd (m w)) = w_outbox w ++ [p] /\
    fst (m w) = sent (provider E (w_outbox w) p) /\
    field "messaging_product" JNull payload = JStr "whatsapp" /\
    field "to" JNull payload = to.

(** A send that is refused before the network: it raises and leaves the
    world as it was. *)
Definition refused (m : M json) : Prop :=
  forall w, exists e, m w = (Raised e, w).

(** * Properties *)

(** ** The monad's combinators *)

Lemma bind_ok {A B} (m : M A) (k : A -> M B) (w w' : World) (a : A) :
  m w = (Ok a, w') -> bind m k w = k a w'.
Proof. intros H. unfold bind. rewrite H. reflexivity. Qed.

Lemma bind_raised {A B} (m : M A) (k : A -> M B) (w w' : World) (e : exn) :
  m w = (Raised e, w') -> bind m k w = (Raised e, w').
Proof. intros H. unfold bind. rewrite H. reflexivity. Qed.

Lemma bind_ext {A B} (m1 m2 : M A) (k1 k2 : A -> M B) (w : World) :
  m1 w = m2 w -> (forall a w1, k1 a w1 = k2 a w1) -> bind m1 k1 w = bind m2 k2 w.
Proof.
  intros Hm Hk. unfold bind. rewrite Hm.
  destruct (m2 w) as [[a|e] w1]; [apply Hk | reflexivity].
Qed.

Lemma bind_lift_ok {A B} (a : A) (k : A -> M B) (w : World) :
  bind (lift (Ok a)) k w = k a w.
Proof. reflexivity. Qed.

Lemma bind_ret {A B} (a : A) (k : A -> M B) (w : World) :
  bind (ret a) k w = k a w.
Proof. reflexivity. Qed.

Lemma for_each_app {A} (xs ys : list A) (body : A -> M unit) (w : World) :
  for_each (xs ++ ys) body w = (for_each xs body ;; for_each ys body) w.
Proof.
  revert w. induction xs as [|x xs IH]; intros w; simpl.
  - reflexivity.
  - unfold bind. destruct (body x w) as [[[]|e] w1].
    + rewrite IH. unfold bind. reflexivity.
    + reflexivity.
Qed.

Lemma for_each_map {A B} (g : A -> B) (xs : list A) (body : B -> M unit) (w : World) :
  for_each (map g xs) body w = for_each xs (fun x => body (g x)) w.
Proof.
  revert w. induction xs as [|x xs IH]; intros w; simpl.
  - reflexivity.
  - unfold bind. destruct (body (g x) w) as [[[]|e] w1]; [apply IH | reflexivity].
Qed.

(** A handler that ends in a catch-all [except] that only logs never
    raises. *)
Lemma try_except_total (body : M unit) (handler : exn -> M unit) :
  (forall e, total (handler e)) -> total (try_except body handler).
Proof.
  intros H w. unfold try_except.
  destruct (body w) as [[[]|e] w1].
  - eexists. reflexivity.
  - apply H.
Qed.

Lemma logger_total (l : log_line) : total (logger l).
Proof. intros w. eexists. reflexivity. Qed.

Lemma for_each_total {A} (xs : list A) (body : A -> M unit) :
  (forall x, total (body x)) -> total (for_each xs body).
Proof.
  intros H. induction xs as [|x xs IH]; intros w; simpl.
  - eexists. reflexivity.
  - destruct (H x w) as [w1 H1]. rewrite (bind_ok _ _ _ _ _ H1). apply IH.
Qed.

Section Properties.

Variable E : Env.

Lemma process_message_total (message value : json) :
  total (process_message E message value).
Proof. apply try_except_total. intros e. apply logger_total. Qed.

Lemma process_status_total (status : json) :
  total (process_status E status).
Proof. apply try_except_total. intros e. apply logger_total. Qed.

Lemma route_total (ev : event) : total (route E ev).
Proof.
  destruct ev; [apply process_message_total | apply process_status_total].
Qed.

(** ** The verification handshake *)

(** C5: the verification GET answers 200 with the challenge as plain text
    exactly when the mode is "subscribe" and the token is the configured
    one; any other mode gets 400, and mode "subscribe" with another token
    gets 403. *)
Theorem verify_webhook_handshake
  (hub_mode hub_verify_token hub_challenge : string) (w : World) :
  let resp := fst (GET_webhook E hub_mode hub_verify_token hub_challenge w) in
  (resp = PlainTextResponse hub_challenge 200 <->
     hub_mode = "subscribe" /\
     hub_verify_token = WEBHOOK_VERIFY_TOKEN (settings E)) /\
  (hub_mode <> "subscribe" ->
     resp = JSONResponse (JObj [("detail", JStr "Invalid hub.mode")]) 400) /\
  (hub_mode = "subscribe" ->
     hub_verify_token <> WEBHOOK_VERIFY_TOKEN (settings E) ->
     resp = JSONResponse (JObj [("detail", JStr "Invalid verify token")]) 403).
Proof.
  unfold GET_webhook, serve, verify_webhook, info, warning, logger, bind, raise, ret.
  destruct (String.eqb_spec hub_mode "subscribe") as [Hm|Hm];
    destruct (String.eqb_spec hub_verify_token (WEBHOOK_VERIFY_TOKEN (settings E)))
      as [Ht|Ht]; simpl; repeat split; try tauto; try congruence;
    intros; try discriminate; tauto.
Qed.

(** ** The transport client *)

(** What one send does: one POST is recorded, the result follows the
    provider's answer, and nothing else of the world but the log moves. *)
Lemma send_request_cases (url : string) (payload : json) (w : World) :
  let p := mkPost url (headers E) payload in
  let out := _send_request E url payload w in
  fst out = sent (provider E (w_outbox w) p) /\
  w_outbox (snd out) = w_outbox w ++ [p] /\
  w_messages (snd out) = w_messages w /\
  w_clock_reads (snd out) = w_clock_reads w /\
  w_db_commands (snd out) = w_db_commands w /\
  w_next_oid (snd out) = w_next_oid w.
Proof.
  unfold _send_request, session_post, response_json, sent. run.
  destruct (provider E (w_outbox w) (mkPost url (headers E) payload)) as [|r]; run.
  - repeat split.
  - destruct (resp_json r) as [d|]; run.
    + destruct (resp_status r =? 200)%Z; run; repeat split.
    + repeat split.
Qed.

(** C8 (as amended): a send makes exactly one POST attempt, whatever the
    provider answers; the answer is a success exactly when its status is
    200 and its body decodes; any other status raises an error that carries
    the decoded body (and no status code), an undecodable body raises the
    decoder's error, and no answer raises the client's. *)
Theorem send_request_single_attempt (url : string) (payload : json) (w : World) :
  let p := mkPost url (headers E) payload in
  let out := _send_request E url payload w in
  w_outbox (snd out) = w_outbox w ++ [p] /\
  fst out =
    match provider E (w_outbox w) p with
    | NoResponse => Raised ClientError
    | Response r =>
        match resp_json r with
        | None => Raised ContentError
        | Some response_data =>
            if (resp_status r =? 200)%Z then Ok response_data
            else Raised (ApiError response_data)
        end
    end.
Proof.
  cbv zeta. destruct (send_request_cases url payload w) as (Hr & Ho & _).
  split; [exact Ho | exact Hr].
Qed.

(** ** The Buttons builder *)

Lemma button_entries_length (buttons : list (list (string * string))) (bs : list json) :
  button_entries buttons = Ok bs -> length bs = length buttons.
Proof.
  revert bs. induction buttons as [|btn rest IH]; intros bs H; simpl in H.
  - inversion H. reflexivity.
  - destruct (button_entry btn) as [b|e]; [|discriminate].
    destruct (button_entries rest) as [bs'|e]; [|discriminate].
    inversion H. simpl. f_equal. apply IH. reflexivity.
Qed.

Lemma button_entry_keyed (btn : list (string * string)) :
  if keyed btn then exists b, button_entry btn = Ok b
  else exists k, button_entry btn = Raised (KeyError k).
Proof.
  unfold keyed, button_entry.
  assert (Hix : forall d k, (exists v, Py.index d k = Ok v) \/ Py.index d k = Raised (KeyError k)).
  { intros d k. induction d as [|[k' v] d IH]; simpl.
    - right. reflexivity.
    - destruct (String.eqb k k'); [left; eexists; reflexivity | exact IH]. }
  destruct (Hix btn "id") as [[v Hv]|Hv]; rewrite Hv.
  - destruct (Hix btn "title") as [[t Ht]|Ht]; rewrite Ht; eexists; reflexivity.
  - eexists; reflexivity.
Qed.

Lemma button_entries_keyed (buttons : list (list (string * string))) :
  if forallb keyed buttons then exists bs, button_entries buttons = Ok bs
  else exists k, button_entries buttons = Raised (KeyError k).
Proof.
  induction buttons as [|btn rest IH]; simpl.
  - eexists. reflexivity.
  - pose proof (button_entry_keyed btn) as Hb.
    destruct (keyed btn); simpl.
    + destruct Hb as [b Hb]. rewrite Hb.
      destruct (forallb keyed rest).
      * destruct IH as [bs IH]. rewrite IH. eexists. reflexivity.
      * destruct IH as [k IH]. rewrite IH. eexists. reflexivity.
    + destruct Hb as [k Hb]. rewrite Hb. eexists. reflexivity.
Qed.

Lemma payload_buttons_built (to : json) (body_text : string) (entries : list json)
  (header_text footer_text : option string) :
  payload_buttons
    (interactive_payload to
       (with_header_footer
          [("type", JStr "button");
           ("body", JObj [("text", JStr body_text)]);
           ("action", JObj [("buttons", JArr entries)])]
          header_text footer_text)) = entries.
Proof.
  unfold with_header_footer.
  destruct (Py.truthy header_text), (Py.truthy footer_text); reflexivity.
Qed.

(** C2 (as amended): building a Buttons payload fails with the validation
    error, and no POST is attempted, for every list of more than 3 buttons;
    for every list of 0 to 3 buttons that each carry an id and a title it
    succeeds, and the payload's interactive.action.buttons has the length of
    the input; a button without one of the two keys fails with KeyError. *)
Theorem buttons_payload_limit (to : json) (body_text : string)
  (buttons : list (list (string * string))) (header_text footer_text : option string) :
  let built := buttons_payload to body_text buttons header_text footer_text in
  if (3 <? length buttons)%nat then
    built = Raised (ValueError "Maximum 3 buttons allowed") /\
    forall w, send_buttons E to body_text buttons header_text footer_text w =
              (Raised (ValueError "Maximum 3 buttons allowed"), w)
  else if forallb keyed buttons then
    exists payload, built = Ok payload /\
                    length (payload_buttons payload) = length buttons
  else
    exists k, built = Raised (KeyError k).
Proof.
  unfold send_buttons, buttons_payload, bind, lift.
  destruct (3 <? length buttons)%nat.
  - split; [reflexivity | intros w; reflexivity].
  - pose proof (button_entries_keyed buttons) as Hk.
    destruct (forallb keyed buttons).
    + destruct Hk as [bs Hbs]. rewrite Hbs. eexists. split; [reflexivity|].
      rewrite payload_buttons_built. apply button_entries_length. exact Hbs.
    + destruct Hk as [k Hk]. rewrite Hk. eexists. reflexivity.
Qed.

(** ** The message collection *)

Lemma update_first_no_match (sel : Doc -> bool) (fields : list (string * bson))
  (ds : list Doc) :
  Forall (fun d => sel d = false) ds -> update_first sel fields ds = (ds, 0%nat).
Proof.
  induction 1 as [|d ds Hd _ IH]; simpl.
  - reflexivity.
  - rewrite Hd, IH. reflexivity.
Qed.

(** C7: a status update whose message id selects no stored document changes
    no document, returns false and raises nothing, whether or not the
    database answers. *)
Theorem update_message_status_no_match (message_id status timestamp : json) (w : World) :
  Forall (fun d => mongo_match E message_id d = false) (w_messages w) ->
  let out := update_message_status E message_id status timestamp w in
  fst out = Ok false /\
  w_messages (snd out) = w_messages w /\
  w_outbox (snd out) = w_outbox w.
Proof.
  intros Hnone.
  unfold update_message_status, datetime_utcnow, update_one, mongo_command. run.
  match goal with |- context [mongo_up E ?n ?c] => destruct (mongo_up E n c) end.
  - rewrite (update_first_no_match _ _ _ Hnone). repeat split.
  - repeat split.
Qed.

Lemma json_eqb_refl : forall j, json_eqb j j = true.
Proof.
  fix IH 1. intros [| b | z | z | s | items | fields]; simpl.
  - reflexivity.
  - destruct b; reflexivity.
  - apply Z.eqb_refl.
  - apply Z.eqb_refl.
  - apply String.eqb_refl.
  - induction items as [|x xs IHxs]; [reflexivity|].
    rewrite IH. exact IHxs.
  - induction fields as [|[k x] xs IHxs]; [reflexivity|].
    rewrite String.eqb_refl, IH. exact IHxs.
Qed.

Lemma with_message_id_app (message_id : json) (ds ds' : list Doc) :
  with_message_id message_id (ds ++ ds') =
  with_message_id message_id ds ++ with_message_id message_id ds'.
Proof. apply List.filter_app. Qed.

Lemma stamped_message_id (message_data : Doc) (created_at updated_at : Z) (oid : nat)
  (message_id : json) :
  message_data !! "message_id" = Some (BJson message_id) ->
  match_message_id message_id (stamped message_data created_at updated_at oid) = true.
Proof.
  intros H. unfold match_message_id, stamped.
  rewrite !lookup_insert_ne by discriminate. rewrite H. apply json_eqb_refl.
Qed.

(** C1 (as amended): save_message is a pure insert.  Saving a record twice
    (a record without [_id], as process_message builds it, the database
    answering) appends two documents that carry the same message id, each
    with its own [_id] and with created_at and updated_at both read from
    the clock at its own save; the documents stored before are untouched. *)
Theorem save_message_twice_appends_two (message_data : Doc) (message_id : json)
  (w : World) :
  message_data !! "_id" = None ->
  message_data !! "message_id" = Some (BJson message_id) ->
  (forall c, mongo_up E (w_db_commands w) c = true) ->
  (forall c, mongo_up E (S (w_db_commands w)) c = true) ->
  let n := w_clock_reads w in
  let i := w_next_oid w in
  let first := save_message E message_data w in
  let second := save_message E message_data (snd first) in
  fst first = Ok (BOid i) /\
  fst second = Ok (BOid (S i)) /\
  w_messages (snd second) =
    w_messages w ++
    [stamped message_data (utcnow E n) (utcnow E (S n)) i;
     stamped message_data (utcnow E (S (S n))) (utcnow E (S (S (S n)))) (S i)] /\
  length (with_message_id message_id (w_messages (snd second))) =
    S (S (length (with_message_id message_id (w_messages w)))).
Proof.
  intros Hid Hmid Hup1 Hup2.
  assert (Hno : forall a b, (<["updated_at" := BDate b]>
                  (<["created_at" := BDate a]> message_data)) !! "_id" = None).
  { intros a b. rewrite !lookup_insert_ne by discriminate. exact Hid. }
  unfold save_message, datetime_utcnow, insert_one, mongo_command. run.
  rewrite Hup1, Hno. run. rewrite Hup2, Hno. run.
  repeat split.
  - rewrite <- app_assoc. reflexivity.
  - rewrite <- app_assoc, with_message_id_app, length_app.
    unfold with_message_id at 2. cbn [List.filter app].
    pose proof (fun a b i => stamped_message_id message_data a b i _ Hmid) as Hs.
    unfold stamped in Hs. rewrite !Hs. simpl. lia.
Qed.

(** ** The POST handler *)

Lemma bind_ok_inv {A B} (m : M A) (k : A -> M B) (w w' : World) (b : B) :
  bind m k w = (Ok b, w') ->
  exists a w1, m w = (Ok a, w1) /\ k a w1 = (Ok b, w').
Proof.
  unfold bind. destruct (m w) as [[a|e] w1]; intros H.
  - exists a, w1. split; [reflexivity | exact H].
  - discriminate.
Qed.

(** Whenever the [try] block of the handler returns, it returns the
    acknowledgment. *)
Lemma receive_message_body_returns_ok (req : request) (w w' : World) (r : http_response) :
  receive_message_body E req w = (Ok r, w') -> r = status_ok.
Proof.
  unfold receive_message_body. intros H.
  apply bind_ok_inv in H as (body & w1 & _ & H).
  apply bind_ok_inv in H as (u & w2 & _ & H).
  apply bind_ok_inv in H as (has_entry & w3 & _ & H).
  destruct (negb has_entry).
  - apply bind_ok_inv in H as (u1 & w4 & _ & H). inversion H. reflexivity.
  - apply bind_ok_inv in H as (entries & w4 & _ & H).
    apply bind_ok_inv in H as (entries' & w5 & _ & H).
    apply bind_ok_inv in H as (u1 & w6 & _ & H).
    inversion H. reflexivity.
Qed.

(** C3: every POST to the webhook is answered with status 200: the body is
    the "ok" acknowledgment when processing completes (as it does when the
    body has no entry key), and the "error" one when an exception leaves
    the processing. *)
Theorem post_webhook_always_200 (req : request) (w : World) :
  let resp := fst (POST_webhook E req w) in
  status_of resp = 200%Z /\
  match fst (receive_message_body E req w) with
  | Ok _ => resp = status_ok
  | Raised _ => resp = status_error
  end /\
  (forall fs, req_json req = Some (JObj fs) -> Py.assoc "entry" fs = None ->
              resp = status_ok).
Proof.
  unfold POST_webhook, serve, receive_message, try_except.
  assert (Hcases :
    let resp := fst (let (r, w') := receive_message_body E req w in
                     match r with
                     | Ok a => (Ok a, w')
                     | Raised e =>
                         (error_exc "Error processing webhook: {}" e ;;
                          ret status_error) w'
                     end) in
    match fst (receive_message_body E req w) with
    | Ok _ => resp = Ok status_ok
    | Raised _ => resp = Ok status_error
    end).
  { destruct (receive_message_body E req w) as [[r|e] w1] eqn:Hb; simpl.
    - rewrite (receive_message_body_returns_ok _ _ _ _ Hb). reflexivity.
    - reflexivity. }
  cbv zeta in Hcases. cbv zeta.
  destruct (receive_message_body E req w) as [[r|e] w1] eqn:Hb; simpl in *.
  - injection Hcases as ->. repeat split.
  - repeat split. intros fs Hj Hentry. exfalso.
    unfold receive_message_body, request_json in Hb. rewrite Hj in Hb.
    revert Hb. run. cbn [Py.contains]. rewrite Hentry. cbn. discriminate.
Qed.

(** C10: the outcome of a POST does not depend on the request's headers,
    so not on X-Hub-Signature-256 either: two requests with the same body
    get the same response and leave the same world.  verify_signature is
    not part of the handler: a request without the header, which
    verify_signature rejects, is processed like any other. *)
Theorem post_webhook_ignores_signature
  (headers1 headers2 : list (string * string)) (raw : string)
  (decoded : option json) (w : World) :
  POST_webhook E (mkRequest headers1 raw decoded) w =
  POST_webhook E (mkRequest headers2 raw decoded) w /\
  verify_signature E raw (signature_header (mkRequest [] raw decoded)) w = (Ok false, w) /\
  POST_webhook E (mkRequest [] raw decoded) w =
  POST_webhook E (mkRequest headers1 raw decoded) w.
Proof.
  split; [|split].
  - unfold POST_webhook, receive_message, receive_message_body, request_json.
    reflexivity.
  - unfold verify_signature, signature_header. cbn [req_headers Py.truthy negb].
    reflexivity.
  - unfold POST_webhook, receive_message, receive_message_body, request_json.
    reflexivity.
Qed.

(** ** The delivery, as a sequence of events *)

Lemma for_each_flat_map {A B} (g : A -> list B) (f : B -> M unit)
  (xs : list A) (body : A -> M unit) :
  (forall x, In x xs -> forall w, body x w = for_each (g x) f w) ->
  forall w, for_each xs body w = for_each (flat_map g xs) f w.
Proof.
  induction xs as [|x xs IH]; intros H w; simpl.
  - reflexivity.
  - rewrite for_each_app. unfold bind.
    rewrite (H x (or_introl eq_refl)).
    destruct (for_each (g x) f w) as [[[]|e] w1]; [|reflexivity].
    apply IH. intros y Hy. apply H. right. exact Hy.
Qed.

Lemma absent_or_inv (k : string) (shape : json -> bool) (o : json) :
  absent_or k shape o = true ->
  exists fs, o = JObj fs /\
             (Py.assoc k fs = None \/
              exists v, Py.assoc k fs = Some v /\ shape v = true).
Proof.
  destruct o; simpl; try discriminate. intros H. eexists. split; [reflexivity|].
  destruct (Py.assoc k fields) as [v|]; [right; eauto | left; reflexivity].
Qed.

Lemma array_of_inv (shape : json -> bool) (j : json) :
  array_of shape j = true ->
  exists l, j = JArr l /\ forall x, In x l -> shape x = true.
Proof.
  destruct j; simpl; try discriminate. intros H. eexists. split; [reflexivity|].
  apply forallb_forall. exact H.
Qed.

(** One optional array of a [value], walked as the handler walks it. *)
Lemma optional_array_walk (k : string) (fs : list (string * json))
  (body : json -> M unit) (rest : M unit) (w : World) :
  absent_or k (array_of (fun _ => true)) (JObj fs) = true ->
  (present <- lift (Py.contains k (JObj fs)) ;;
   (if present then
      xs <- lift (Py.get (JObj fs) k (JArr [])) ;;
      xs <- lift (Py.iter xs) ;;
      for_each xs body
    else ret tt) ;;
   rest) w =
  (for_each (items (field k (JArr []) (JObj fs))) body ;; rest) w.
Proof.
  intros H. apply absent_or_inv in H. destruct H as (fs' & Hfs & H).
  injection Hfs as <-.
  destruct H as [Hnone | (v & Hsome & Hv)].
  - run. cbn [Py.contains Py.get field]. rewrite Hnone. reflexivity.
  - apply array_of_inv in Hv. destruct Hv as (l & -> & _).
    run. cbn [Py.contains Py.get field]. rewrite Hsome. reflexivity.
Qed.

Lemma optional_array_walk_last (k : string) (fs : list (string * json))
  (body : json -> M unit) (w : World) :
  absent_or k (array_of (fun _ => true)) (JObj fs) = true ->
  (present <- lift (Py.contains k (JObj fs)) ;;
   if present then
     xs <- lift (Py.get (JObj fs) k (JArr [])) ;;
     xs <- lift (Py.iter xs) ;;
     for_each xs body
   else ret tt) w =
  for_each (items (field k (JArr []) (JObj fs))) body w.
Proof.
  intros H. apply absent_or_inv in H. destruct H as (fs' & Hfs & H).
  injection Hfs as <-.
  destruct H as [Hnone | (v & Hsome & Hv)].
  - run. cbn [Py.contains Py.get field]. rewrite Hnone. reflexivity.
  - apply array_of_inv in Hv. destruct Hv as (l & -> & _).
    run. cbn [Py.contains Py.get field]. rewrite Hsome. reflexivity.
Qed.

Lemma change_value_shape (change : json) :
  change_shape change = true ->
  exists fs vfs, change = JObj fs /\
                 field "value" (JObj []) change = JObj vfs /\
                 value_shape (JObj vfs) = true.
Proof.
  intros H. apply absent_or_inv in H. destruct H as (fs & -> & H).
  destruct H as [Hnone | (v & Hsome & Hv)].
  - exists fs, []. cbn [field]. rewrite Hnone. repeat split.
  - pose proof Hv as Hv'. unfold value_shape in Hv'.
    apply andb_prop in Hv'. destruct Hv' as [Hm _].
    apply absent_or_inv in Hm. destruct Hm as (vfs & -> & _).
    exists fs, vfs. cbn [field]. rewrite Hsome. repeat split. exact Hv.
Qed.

(** The handler's work on one change is the routing of the change's
    events, messages first. *)
Lemma change_walk (change : json) (w : World) :
  change_shape change = true ->
  (value <- lift (Py.get change "value" (JObj [])) ;;
   has_messages <- lift (Py.contains "messages" value) ;;
   (if has_messages then
      messages <- lift (Py.get value "messages" (JArr [])) ;;
      messages <- lift (Py.iter messages) ;;
      for_each messages (fun message => process_message E message value)
    else ret tt) ;;
   has_statuses <- lift (Py.contains "statuses" value) ;;
   (if has_statuses then
      statuses <- lift (Py.get value "statuses" (JArr [])) ;;
      statuses <- lift (Py.iter statuses) ;;
      for_each statuses (fun status => process_status E status)
    else ret tt)) w =
  for_each (change_events change) (route E) w.
Proof.
  intros H. destruct (change_value_shape _ H) as (fs & vfs & -> & Hvalue & Hshape).
  unfold change_events. rewrite Hvalue.
  unfold value_shape in Hshape. apply andb_prop in Hshape.
  destruct Hshape as [Hm Hs].
  cbn [field] in Hvalue.
  unfold bind at 1. cbn [lift Py.get]. rewrite Hvalue.
  rewrite (optional_array_walk "messages" vfs _ _ w Hm).
  rewrite for_each_app. apply bind_ext.
  - rewrite for_each_map. reflexivity.
  - intros _ w1. rewrite (optional_array_walk_last "statuses" vfs _ w1 Hs).
    rewrite for_each_map. reflexivity.
Qed.

(** The handler's work on one entry is the routing of the entry's events,
    change after change. *)
Lemma entry_walk (entry : json) (w : World) :
  entry_shape entry = true ->
  (changes <- lift (Py.get entry "changes" (JArr [])) ;;
   changes <- lift (Py.iter changes) ;;
   for_each changes (fun change =>
     value <- lift (Py.get change "value" (JObj [])) ;;
     has_messages <- lift (Py.contains "messages" value) ;;
     (if has_messages then
        messages <- lift (Py.get value "messages" (JArr [])) ;;
        messages <- lift (Py.iter messages) ;;
        for_each messages (fun message => process_message E message value)
      else ret tt) ;;
     has_statuses <- lift (Py.contains "statuses" value) ;;
     (if has_statuses then
        statuses <- lift (Py.get value "statuses" (JArr [])) ;;
        statuses <- lift (Py.iter statuses) ;;
        for_each statuses (fun status => process_status E status)
      else ret tt))) w =
  for_each (entry_events entry) (route E) w.
Proof.
  intros H. apply absent_or_inv in H. destruct H as (fs & -> & H).
  unfold entry_events. cbn [field].
  unfold bind at 1. cbn [lift Py.get].
  destruct H as [Hnone | (v & Hsome & Hv)].
  - rewrite Hnone. reflexivity.
  - rewrite Hsome. apply array_of_inv in Hv. destruct Hv as (l & -> & Hl).
    unfold bind at 1. cbn [lift Py.iter default id items].
    apply for_each_flat_map. intros change Hin w0.
    apply change_walk. apply Hl. exact Hin.
Qed.

(** On an envelope, the [try] block of the handler does what the
    specification's pipeline does: normalize, route in order,
    acknowledge. *)
Lemma receive_message_body_delivers (req : request) (body : json) (w : World) :
  req_json req = Some body ->
  envelope body = true ->
  receive_message_body E req w = deliver E body w.
Proof.
  intros Hreq H. apply absent_or_inv in H. destruct H as (fs & -> & H).
  unfold receive_message_body, deliver, request_json, normalize. rewrite Hreq.
  unfold bind at 1. cbn [ret].
  apply bind_ext; [reflexivity|]. intros _ w1.
  unfold bind at 1. cbn [lift Py.contains has_key field].
  destruct H as [Hnone | (v & Hsome & Hv)].
  - rewrite Hnone. reflexivity.
  - rewrite Hsome. apply array_of_inv in Hv. destruct Hv as (l & -> & Hl).
    change (bool_decide (is_Some (Some (JArr l)))) with true.
    cbn [negb Py.get default id items]. rewrite Hsome. cbn [default id Py.iter].
    rewrite bind_lift_ok. cbn [Py.iter]. rewrite bind_lift_ok, bind_ret.
    apply bind_ext; [|reflexivity].
    apply for_each_flat_map. intros entry Hin w0.
    apply entry_walk. apply Hl. exact Hin.
Qed.

Lemma deliver_returns (body : json) (w : World) :
  exists w', deliver E body w = (Ok status_ok, w').
Proof.
  unfold deliver.
  destruct (for_each_total (normalize body) (route E) route_total
              (snd ((info "Received webhook: {}" [body] ;;
                     (if has_key "entry" body then ret tt
                      else warning "No entry in webhook body" [])) w)))
    as [w' Hw'].
  exists w'. revert Hw'. run.
  destruct (has_key "entry" body); run; intros ->; reflexivity.
Qed.

Lemma receive_message_delivers (req : request) (body : json) (w : World) :
  req_json req = Some body ->
  envelope body = true ->
  receive_message E req w = deliver E body w.
Proof.
  intros Hreq Henv. unfold receive_message, try_except.
  rewrite (receive_message_body_delivers _ _ _ Hreq Henv).
  destruct (deliver_returns body w) as [w' ->]. reflexivity.
Qed.

(** C6: on an envelope, the handler processes exactly the events of the
    normalized sequence, one after the other in that sequence's order
    (entries in array order, changes in array order, the messages of a
    change before its statuses, each in array order), and acknowledges;
    a body without the entry key normalizes to the empty sequence and is
    acknowledged, not refused. *)
Theorem delivery_in_encounter_order (req : request) (body : json) (w : World) :
  req_json req = Some body ->
  envelope body = true ->
  receive_message E req w = deliver E body w /\
  (has_key "entry" body = false ->
     normalize body = [] /\ fst (POST_webhook E req w) = status_ok).
Proof.
  intros Hreq Henv. split.
  - apply receive_message_delivers; assumption.
  - intros Hkey. assert (Hn : normalize body = []).
    { unfold normalize. destruct body; try reflexivity.
      simpl in Hkey. cbn [field]. destruct (Py.assoc "entry" fields); [|reflexivity].
      discriminate. }
    split; [exact Hn|].
    unfold POST_webhook, serve.
    rewrite (receive_message_delivers _ _ _ Hreq Henv).
    destruct (deliver_returns body w) as [w' ->]. reflexivity.
Qed.

(** ** The router *)

Lemma save_message_cases (message_data : Doc) (w : World) :
  message_data !! "_id" = None ->
  let document :=
    <["updated_at" := BDate (utcnow E (S (w_clock_reads w)))]>
      (<["created_at" := BDate (utcnow E (w_clock_reads w))]> message_data) in
  let out := save_message E message_data w in
  is_ok (fst out) = mongo_up E (w_db_commands w) (InsertOne document) /\
  w_outbox (snd out) = w_outbox w.
Proof.
  intros Hid.
  assert (Hno : forall a b, (<["updated_at" := BDate b]>
                  (<["created_at" := BDate a]> message_data)) !! "_id" = None).
  { intros a b. rewrite !lookup_insert_ne by discriminate. exact Hid. }
  unfold save_message, datetime_utcnow, insert_one, mongo_command. run.
  match goal with |- context [mongo_up E ?n ?c] => destruct (mongo_up E n c) end; run.
  - rewrite Hno. run. split; reflexivity.
  - split; reflexivity.
Qed.

Lemma message_record_no_id (message_id from_number message_type timestamp message : json) :
  message_record message_id from_number message_type timestamp message !! "_id" = None.
Proof. unfold message_record. rewrite !lookup_insert_ne by discriminate. apply lookup_empty. Qed.

Lemma recognized_false (t : json) :
  recognized t = false ->
  Py.eq_str t "text" = false /\ Py.eq_str t "image" = false /\
  Py.eq_str t "document" = false /\ Py.eq_str t "audio" = false /\
  Py.eq_str t "video" = false /\ Py.eq_str t "location" = false /\
  Py.eq_str t "interactive" = false.
Proof.
  unfold recognized. cbn [existsb]. intros H.
  repeat (apply orb_false_elim in H; destruct H as [? H]). repeat split; assumption.
Qed.

(** C9: a message whose type is none of text, image, document, audio,
    video, location, interactive is passed to no handler: besides the read
    receipt nothing is POSTed for it (no reply), process_message returns
    normally, its last act is a log line (the warning about the unsupported
    type, or the error that cut the processing short), and the events that
    follow it in the delivery are processed next. *)
Theorem unknown_type_logged_and_skipped (message value : json) (rest : list event)
  (w : World) :
  recognized (field "type" JNull message) = false ->
  let out := process_message E message value w in
  let receipt :=
    mkPost (api_url E +:+ "/messages") (headers E)
           (read_payload (field "id" JNull message)) in
  fst out = Ok tt /\
  w_outbox (snd out) =
    w_outbox w ++ match message with JObj _ => [receipt] | _ => [] end /\
  (exists lines last,
     w_log (snd out) = lines ++ [last] /\
     (last = Log WARNING "Unsupported message type: {}"
               [BJson (field "type" JNull message)] \/
      exists e, last = LogExn ERROR "Error processing message: {}" e)) /\
  for_each (MessageReceived message value :: rest) (route E) w =
  for_each rest (route E) (snd out).
Proof.
  intros Hrec. cbv zeta.
  assert (Hnext : for_each (MessageReceived message value :: rest) (route E) w =
                  for_each rest (route E) (snd (process_message E message value w))).
  { cbn [for_each route]. unfold bind.
    destruct (process_message_total message value w) as [w' ->]. reflexivity. }
  assert (Hok : fst (process_message E message value w) = Ok tt).
  { destruct (process_message_total message value w) as [w' ->]. reflexivity. }
  split; [exact Hok|]. apply and_assoc. split; [|exact Hnext]. clear Hnext Hok.
  destruct (process_message E message value w) as [r w'] eqn:Hpm.
  cbn [fst snd]. revert Hpm. unfold process_message.
  destruct message as [| b | z | z | s | items | fs];
    try (run; cbn [Py.get]; run; intros [= <- <-]; cbn [w_outbox w_log];
         rewrite app_nil_r; split; [reflexivity|];
         eexists _, _; split; [reflexivity|]; right; eexists; reflexivity).
  cbn [field] in Hrec. apply recognized_false in Hrec.
  destruct Hrec as (H1 & H2 & H3 & H4 & H5 & H6 & H7).
  unfold try_except. cbn [Py.get field]. rewrite !bind_lift_ok.
  unfold bind at 1. cbn [info logger]. unfold bind at 1. unfold mark_as_read.
  match goal with |- context [_send_request E ?u ?p ?w0] =>
    destruct (send_request_cases u p w0) as (_ & Ho & _);
    destruct (_send_request E u p w0) as [[d|e] w1] end;
    cbn [fst snd w_outbox] in Ho.
  - unfold bind at 1.
    match goal with |- context [save_message E ?md ?w0] =>
      destruct (save_message_cases md w0 (message_record_no_id _ _ _ _ _)) as (_ & Hs);
      destruct (save_message E md w0) as [[i|e] w2] end;
      cbn [fst snd] in Hs.
    + rewrite H1, H2, H3, H4, H5, H6, H7. run. intros [= <- <-].
      cbn [w_outbox w_log]. rewrite Hs, Ho.
      split; [reflexivity|]. eexists _, _. split; [reflexivity|]. left. reflexivity.
    + run. intros [= <- <-]. cbn [w_outbox w_log]. rewrite Hs, Ho.
      split; [reflexivity|]. eexists _, _. split; [reflexivity|]. right.
      eexists. reflexivity.
  - run. intros [= <- <-]. cbn [w_outbox w_log].
    split; [exact Ho|]. eexists _, _. split; [reflexivity|]. right.
    eexists. reflexivity.
Qed.


(** What process_message does with a text message that says "menu": the
    read receipt is POSTed; the list is POSTed after it exactly when the
    receipt was accepted and the record was saved. *)
Lemma process_menu_message (fs tfs : list (string * json)) (value : json) (w : World) :
  Py.assoc "type" fs = Some (JStr "text") ->
  Py.assoc "text" fs = Some (JObj tfs) ->
  Py.assoc "body" tfs = Some (JStr "menu") ->
  let message := JObj fs in
  let url := api_url E +:+ "/messages" in
  let receipt := mkPost url (headers E) (read_payload (field "id" JNull message)) in
  let menu :=
    mkPost url (headers E)
      (list_payload (field "from" JNull message) "Select an option from the menu:"
         "View Options" menu_sections None None) in
  let document :=
    <["updated_at" := BDate (utcnow E (S (w_clock_reads w)))]>
      (<["created_at" := BDate (utcnow E (w_clock_reads w))]>
         (message_record (field "id" JNull message) (field "from" JNull message)
            (JStr "text") (field "timestamp" JNull message) message)) in
  let reached :=
    is_ok (sent (provider E (w_outbox w) receipt)) &&
    mongo_up E (w_db_commands w) (InsertOne document) in
  w_outbox (snd (process_message E message value w)) =
  w_outbox w ++ receipt :: (if reached then [menu] else []).
Proof.
  intros Htype Htext Hbody. cbv zeta.
  destruct (process_message E (JObj fs) value w) as [r w'] eqn:Hpm.
  cbn [fst snd]. revert Hpm. unfold process_message, try_except.
  cbn [Py.get field]. rewrite Htype. cbn [default id]. rewrite !bind_lift_ok.
  unfold bind at 1. cbn [info logger]. unfold bind at 1. unfold mark_as_read.
  match goal with |- context [_send_request E ?u ?p ?w0] =>
    destruct (send_request_cases u p w0) as (Hr & Ho & _ & Hc & Hd & _);
    destruct (_send_request E u p w0) as [[d|e] w1] end;
    cbn [fst snd w_outbox w_clock_reads w_db_commands] in Hr, Ho, Hc, Hd;
    rewrite <- Hr; cbn [is_ok andb].
  - unfold bind at 1.
    match goal with |- context [save_message E ?md ?w0] =>
      destruct (save_message_cases md w0 (message_record_no_id _ _ _ _ _)) as (Hi & Hs);
      destruct (save_message E md w0) as [[i|e] w2] end;
      cbn [fst snd is_ok] in Hi, Hs; rewrite Hc, Hd in Hi; rewrite <- Hi.
    + cbn [Py.eq_str Py.is_str String.eqb Ascii.eqb Bool.eqb].
      unfold handle_text_message. cbn [Py.get]. rewrite Htext. cbn [default id].
      rewrite bind_lift_ok. cbn [Py.get]. rewrite Hbody. cbn [default id].
      rewrite bind_lift_ok.
      change (Py.strip_of (JStr "menu")) with (Ok (A:=string) "menu").
      rewrite bind_lift_ok.
      change (Py.lower "menu") with "menu".
      unfold bind at 1. cbn [info logger].
      cbn [existsb String.eqb Ascii.eqb Bool.eqb orb]. unfold send_list.
      unfold bind at 1.
      match goal with |- context [_send_request E ?u ?p ?w0] =>
        destruct (send_request_cases u p w0) as (_ & Ho' & _);
        destruct (_send_request E u p w0) as [[d'|e'] w3] end;
        cbn [fst snd w_outbox] in Ho'.
      * run. intros [= <- <-]. cbn [w_outbox]. rewrite Ho', Hs, Ho.
        rewrite <- app_assoc. reflexivity.
      * run. intros [= <- <-]. cbn [w_outbox]. rewrite Ho', Hs, Ho.
        rewrite <- app_assoc. reflexivity.
    + run. intros [= <- <-]. cbn [w_outbox]. rewrite Hs, Ho. reflexivity.
  - run. intros [= <- <-]. cbn [w_outbox]. exact Ho.
Qed.

(** C4 (as amended): a delivery that holds a single text message saying
    "menu" is always answered 200 with the "ok" acknowledgment, whatever
    the transport does.  The read receipt is POSTed first and awaited; the
    List intent (one section, three rows with the ids option_1, option_2,
    option_3) is POSTed exactly once when the receipt was accepted and the
    record was saved, whether or not the List POST itself then fails, and
    not at all when the receipt or the save failed. *)
Theorem menu_message_gets_list (req : request) (body value : json)
  (fs tfs : list (string * json)) (w : World) :
  req_json req = Some body ->
  envelope body = true ->
  normalize body = [MessageReceived (JObj fs) value] ->
  Py.assoc "type" fs = Some (JStr "text") ->
  Py.assoc "text" fs = Some (JObj tfs) ->
  Py.assoc "body" tfs = Some (JStr "menu") ->
  let message := JObj fs in
  let url := api_url E +:+ "/messages" in
  let receipt := mkPost url (headers E) (read_payload (field "id" JNull message)) in
  let menu :=
    mkPost url (headers E)
      (list_payload (field "from" JNull message) "Select an option from the menu:"
         "View Options" menu_sections None None) in
  let document :=
    <["updated_at" := BDate (utcnow E (S (w_clock_reads w)))]>
      (<["created_at" := BDate (utcnow E (w_clock_reads w))]>
         (message_record (field "id" JNull message) (field "from" JNull message)
            (JStr "text") (field "timestamp" JNull message) message)) in
  let reached :=
    is_ok (sent (provider E (w_outbox w) receipt)) &&
    mongo_up E (w_db_commands w) (InsertOne document) in
  let posted := receipt :: (if reached then [menu] else []) in
  let out := POST_webhook E req w in
  fst out = status_ok /\
  w_outbox (snd out) = w_outbox w ++ posted /\
  list_intents posted = (if reached then [post_json menu] else []) /\
  map row_ids (payload_sections (post_json menu)) =
    [[JStr "option_1"; JStr "option_2"; JStr "option_3"]].
Proof.
  intros Hreq Henv Hnorm Htype Htext Hbody. cbv zeta.
  split; [|split; [|split]].
  - unfold POST_webhook, serve. rewrite (receive_message_delivers _ _ _ Hreq Henv).
    destruct (deliver_returns body w) as [w' ->]. reflexivity.
  - unfold POST_webhook, serve. rewrite (receive_message_delivers _ _ _ Hreq Henv).
    unfold deliver. rewrite Hnorm. cbn [for_each route].
    destruct (has_key "entry" body); run;
      match goal with |- context [process_message E ?m ?v ?w0] =>
        pose proof (process_menu_message fs tfs value w0 Htype Htext Hbody) as Hp;
        cbv zeta in Hp;
        cbn [w_outbox w_clock_reads w_db_commands] in Hp;
        destruct (process_message_total m v w0) as [w' Hw'];
        rewrite Hw' in Hp |- *; cbn [fst snd] in Hp |- *; exact Hp
      end.
  - match goal with |- context [if ?b then _ else _] => destruct b end; reflexivity.
  - reflexivity.
Qed.

End Properties.

(** * Concrete runs *)

(** ** Counterexamples to the claims as the specification words them *)

(** C1, as stated, fails: after the provider delivered the same message
    twice, the collection holds two documents with that message id, not
    one, and the second carries its own created_at, not the first's. *)
Lemma redelivery_stores_two_records :
  length (with_message_id (JStr "wamid.test123") (w_messages redelivered)) = 2%nat /\
  map (fun d : Doc => d !! "created_at") (w_messages redelivered) =
    [Some (BDate 0); Some (BDate 2)] /\
  map (fun d : Doc => d !! "_id") (w_messages redelivered) =
    [Some (BOid 0); Some (BOid 1)].
Proof. vm_compute. repeat split. Qed.

(** C2, as stated, fails at length 0: the empty list builds a payload, with
    an empty buttons array, and the payload is POSTed. *)
Lemma empty_buttons_are_built_and_posted :
  is_ok (buttons_payload (JStr "15550001111") "Choose an action:" [] None None) = true /\
  map (fun p => payload_buttons (post_json p))
      (w_outbox (snd (send_buttons env_up (JStr "15550001111") "Choose an action:"
                        [] None None world0))) = [[]].
Proof. vm_compute. split; reflexivity. Qed.

(** C4, as stated, fails when the transport is down: the read receipt is
    awaited, its failure ends the processing of the message, and no List
    intent is produced; the acknowledgment is still "ok". *)
Lemma menu_without_transport_sends_no_list :
  fst (POST_webhook env_down menu_request world0) = status_ok /\
  list_intents (w_outbox (snd (POST_webhook env_down menu_request world0))) = [] /\
  map post_json (w_outbox (snd (POST_webhook env_down menu_request world0))) =
    [read_payload (JStr "wamid.test123")].
Proof. vm_compute. repeat split. Qed.

(** C8, as stated, fails on a 2xx answer other than 200: a 201 with a JSON
    body is raised as an error; and the error of a 201 is the error of a
    500 with the same body, so it does not carry the status. *)
Lemma created_answer_is_an_error :
  fst (_send_request env_201 "https://graph.facebook.com/v18.0/1/messages"
         (read_payload (JStr "wamid.test123")) world0) =
    Raised (ApiError (JObj [])) /\
  fst (_send_request (env_with (Response (mkResponse 500 "{}" (Some (JObj [])))))
         "https://graph.facebook.com/v18.0/1/messages"
         (read_payload (JStr "wamid.test123")) world0) =
    Raised (ApiError (JObj [])).
Proof. vm_compute. split; reflexivity. Qed.

(** ** Witnesses: the theorems with hypotheses, at concrete inputs *)

Lemma save_message_twice_appends_two_witness :
  sample_record !! "_id" = None /\
  sample_record !! "message_id" = Some (BJson (JStr "wamid.test123")) /\
  length (with_message_id (JStr "wamid.test123")
            (w_messages (snd (save_message env_up sample_record
                                (snd (save_message env_up sample_record world0)))))) =
    2%nat.
Proof.
  assert (H1 : sample_record !! "_id" = None) by (vm_compute; reflexivity).
  assert (H2 : sample_record !! "message_id" = Some (BJson (JStr "wamid.test123")))
    by (vm_compute; reflexivity).
  split; [exact H1|]. split; [exact H2|].
  exact (proj2 (proj2 (proj2
    (save_message_twice_appends_two env_up sample_record (JStr "wamid.test123") world0
       H1 H2 (fun _ => eq_refl) (fun _ => eq_refl))))).
Defined.

Lemma update_message_status_no_match_witness :
  Forall (fun d => mongo_match env_up (JStr "wamid.unknown") d = false)
         (w_messages world_one) /\
  length (w_messages world_one) = 1%nat /\
  fst (update_message_status env_up (JStr "wamid.unknown") (JStr "delivered")
         (JStr "1234567899") world_one) = Ok false /\
  w_messages (snd (update_message_status env_up (JStr "wamid.unknown")
                     (JStr "delivered") (JStr "1234567899") world_one)) =
    w_messages world_one.
Proof.
  assert (H : Forall (fun d => mongo_match env_up (JStr "wamid.unknown") d = false)
                     (w_messages world_one)).
  { change (w_messages world_one) with [stamped sample_record 0 1 0].
    constructor; [vm_compute; reflexivity | constructor]. }
  split; [exact H|]. split; [vm_compute; reflexivity|].
  pose proof (update_message_status_no_match env_up (JStr "wamid.unknown")
                (JStr "delivered") (JStr "1234567899") world_one H) as (Hr & Hm & _).
  split; [exact Hr | exact Hm].
Defined.

Lemma delivery_in_encounter_order_witness :
  envelope (delivery_of [sticker_message; text_message "hello"] [sample_status]) = true /\
  normalize (delivery_of [sticker_message; text_message "hello"] [sample_status]) =
    [MessageReceived sticker_message
       (value_of [sticker_message; text_message "hello"] [sample_status]);
     MessageReceived (text_message "hello")
       (value_of [sticker_message; text_message "hello"] [sample_status]);
     StatusUpdate sample_status] /\
  receive_message env_up
    (request_of (delivery_of [sticker_message; text_message "hello"] [sample_status]))
    world0 =
  deliver env_up (delivery_of [sticker_message; text_message "hello"] [sample_status])
    world0.
Proof.
  split; [reflexivity|]. split; [reflexivity|].
  exact (proj1 (delivery_in_encounter_order env_up
                  (request_of (delivery_of [sticker_message; text_message "hello"]
                                 [sample_status]))
                  _ world0 eq_refl eq_refl)).
Defined.

Lemma unknown_type_logged_and_skipped_witness :
  recognized (field "type" JNull sticker_message) = false /\
  fst (process_message env_up sticker_message (value_of [sticker_message] []) world0) =
    Ok tt /\
  map post_json
    (w_outbox (snd (process_message env_up sticker_message
                      (value_of [sticker_message] []) world0))) =
    [read_payload (JStr "wamid.test456")].
Proof.
  assert (H : recognized (field "type" JNull sticker_message) = false) by reflexivity.
  split; [exact H|].
  pose proof (unknown_type_logged_and_skipped env_up sticker_message
                (value_of [sticker_message] []) [] world0 H) as (Hr & Ho & _).
  split; [exact Hr|]. rewrite Ho. reflexivity.
Defined.

Lemma menu_message_gets_list_witness :
  normalize (delivery_of [text_message "menu"] []) =
    [MessageReceived (text_message "menu") (value_of [text_message "menu"] [])] /\
  fst (POST_webhook env_up menu_request world0) = status_ok /\
  list_intents (w_outbox (snd (POST_webhook env_up menu_request world0))) =
    [list_payload (JStr "15550001111") "Select an option from the menu:"
       "View Options" menu_sections None None].
Proof.
  split; [reflexivity|].
  pose proof (menu_message_gets_list env_up menu_request
                (delivery_of [text_message "menu"] [])
                (value_of [text_message "menu"] [])
                [("from", JStr "15550001111"); ("id", JStr "wamid.test123");
                 ("timestamp", JStr "1234567890"); ("type", JStr "text");
                 ("text", JObj [("body", JStr "menu")])]
                [("body", JStr "menu")] world0
                eq_refl eq_refl eq_refl eq_refl eq_refl eq_refl) as (Hr & Ho & _).
  split; [exact Hr|]. rewrite Ho. vm_compute. reflexivity.
Defined.

(** ** The signature check, which no route calls *)

Example verify_signature_accepts :
  verify_signature env_up "{}" (Some "sha256=00") world0 = (Ok true, world0).
Proof. reflexivity. Qed.

Example verify_signature_rejects_other_algorithm :
  verify_signature env_up "{}" (Some "md5=00") world0 = (Ok false, world0).
Proof. reflexivity. Qed.

Example verify_signature_rejects_malformed :
  fst (verify_signature env_up "{}" (Some "sha256") world0) = Ok false /\
  w_log (snd (verify_signature env_up "{}" (Some "sha256") world0)) =
    [LogExn ERROR "Error verifying signature: {}"
       (ValueError "wrong number of values to unpack")].
Proof. split; reflexivity. Qed.

(** ** The greeting is matched without regard to case and outer blanks *)

Example greeting_any_case :
  map post_json
    (w_outbox (snd (POST_webhook env_up
                      (request_of (delivery_of [text_message " Hello  "] [])) world0))) =
  map post_json (w_outbox (snd (POST_webhook env_up hello_request world0))).
Proof. vm_compute. reflexivity. Qed.

(** * Further properties of the code *)

Section More.

Variable E : Env.
Variable mongo_read_up : nat -> bool.

(** ** The outbound client *)

Lemma send_request_posts_once (to payload : json) :
  field "messaging_product" JNull payload = JStr "whatsapp" ->
  field "to" JNull payload = to ->
  posts_once E to (_send_request E (api_url E +:+ "/messages") payload).
Proof.
  intros Hp Ht w. exists payload. cbv zeta.
  destruct (send_request_cases E (api_url E +:+ "/messages") payload w)
    as (Hr & Ho & _).
  repeat split; assumption.
Qed.

(** X1: every send of the client either is refused before the network,
    leaving the world untouched (more than three buttons, a button without
    id or title, an image or a document with neither link nor id), or makes
    exactly one POST to the messages endpoint with the bearer headers,
    whose payload names the product "whatsapp" and the recipient. *)
Theorem every_send_posts_once_or_is_refused (to : json) :
  (forall message preview_url,
     posts_once E to (send_text_message E to message preview_url)) /\
  (forall body_text button_text sections header_text footer_text,
     posts_once E to
       (send_list E to body_text button_text sections header_text footer_text)) /\
  (forall template_name language_code components,
     posts_once E to (send_template E to template_name language_code components)) /\
  (forall body_text buttons header_text footer_text,
     if (length buttons <=? 3)%nat && forallb keyed buttons then
       posts_once E to (send_buttons E to body_text buttons header_text footer_text)
     else refused (send_buttons E to body_text buttons header_text footer_text)) /\
  (forall image_url image_id caption,
     if Py.truthy image_url || Py.truthy image_id then
       posts_once E to (send_image E to image_url image_id caption)
     else refused (send_image E to image_url image_id caption)) /\
  (forall document_url document_id filename caption,
     if Py.truthy document_url || Py.truthy document_id then
       posts_once E to (send_document E to document_url document_id filename caption)
     else refused (send_document E to document_url document_id filename caption)).
Proof.
  repeat split.
  - intros. apply send_request_posts_once; reflexivity.
  - intros. apply send_request_posts_once; reflexivity.
  - intros. apply send_request_posts_once; reflexivity.
  - intros body_text buttons header_text footer_text.
    unfold send_buttons, buttons_payload.
    rewrite Nat.leb_antisym. destruct (3 <? length buttons)%nat; cbn [negb andb].
    + intros w. eexists. reflexivity.
    + pose proof (button_entries_keyed buttons) as Hk.
      destruct (forallb keyed buttons).
      * destruct Hk as [bs ->]. intros w. rewrite bind_lift_ok.
        apply send_request_posts_once; reflexivity.
      * destruct Hk as [k ->]. intros w. eexists. reflexivity.
  - intros image_url image_id caption. unfold send_image, image_payload.
    destruct (Py.truthy image_url); [|destruct (Py.truthy image_id)]; cbn [orb].
    + intros w. rewrite bind_lift_ok. apply send_request_posts_once; reflexivity.
    + intros w. rewrite bind_lift_ok. apply send_request_posts_once; reflexivity.
    + intros w. eexists. reflexivity.
  - intros document_url document_id filename caption.
    unfold send_document, document_payload.
    destruct (Py.truthy document_url); [|destruct (Py.truthy document_id)]; cbn [orb].
    + intros w. rewrite bind_lift_ok. apply send_request_posts_once; reflexivity.
    + intros w. rewrite bind_lift_ok. apply send_request_posts_once; reflexivity.
    + intros w. eexists. reflexivity.
Qed.



(** What the interactive builders are given is what the wire payload
    holds, whatever header and footer go with it: the sections of a list
    (and the payload reads as a list), the header only when its text is
    non-empty, the footer only when its text is non-empty. *)
Theorem list_payload_round_trip (to : json) (body_text button_text : string)
  (sections : list json) (header_text footer_text : option string) :
  let payload :=
    list_payload to body_text button_text sections header_text footer_text in
  payload_sections payload = sections /\
  is_list_payload payload = true /\
  field "text" JNull (field "body" JNull (interactive_of payload)) = JStr body_text /\
  field "button" JNull (field "action" JNull (interactive_of payload)) =
    JStr button_text /\
  has_key "header" (interactive_of payload) = Py.truthy header_text /\
  has_key "footer" (interactive_of payload) = Py.truthy footer_text.
Proof.
  unfold list_payload, with_header_footer.
  destruct (Py.truthy header_text), (Py.truthy footer_text); repeat split.
Qed.

(** ** The signature check *)

Lemma split_not_nil (sep : ascii) (s : string) : Py.split sep s <> [].
Proof.
  induction s as [|c s IH]; simpl; [discriminate|].
  destruct (Py.split sep s) as [|p ps]; [discriminate|].
  destruct (Ascii.eqb c sep); discriminate.
Qed.

Lemma join_split (sep : ascii) (s : string) : join sep (Py.split sep s) = s.
Proof.
  induction s as [|c s IH]; [reflexivity|]. simpl.
  destruct (Py.split sep s) as [|p ps] eqn:Hs; [destruct (split_not_nil _ _ Hs)|].
  destruct (Ascii.eqb_spec c sep) as [->|Hc].
  - cbn [join]. cbn [join] in IH. rewrite IH. reflexivity.
  - destruct ps as [|q qs]; cbn [join] in *; rewrite <- IH; reflexivity.
Qed.

Lemma split_hex (s : string) : is_hex s = true -> Py.split "=" s = [s].
Proof.
  induction s as [|c s IH]; [reflexivity|]. simpl. intros H.
  apply andb_prop in H. destruct H as [Hc Hs]. rewrite (IH Hs).
  destruct (Ascii.eqb_spec c "="%char) as [->|_]; [discriminate|reflexivity].
Qed.

Lemma split_app (sep : ascii) (a b : string) :
  Py.split sep a = [a] ->
  Py.split sep (a +:+ String sep b) = a :: Py.split sep b.
Proof.
  induction a as [|c a IH]; intros Ha.
  - simpl.
    destruct (Py.split sep b) as [|p ps] eqn:Hb; [destruct (split_not_nil _ _ Hb)|].
    rewrite Ascii.eqb_refl. reflexivity.
  - simpl in *.
    destruct (Py.split sep a) as [|p ps] eqn:Hsa; [destruct (split_not_nil _ _ Hsa)|].
    destruct (Ascii.eqb c sep); [discriminate|].
    injection Ha as -> ->. rewrite (IH eq_refl). reflexivity.
Qed.

Lemma hex_is_ascii (s : string) : is_hex s = true -> is_ascii s = true.
Proof.
  unfold is_ascii. induction s as [|c s IH]; [reflexivity|]. simpl. intros H.
  apply andb_prop in H. destruct H as [Hc Hs]. rewrite (IH Hs), andb_true_r.
  unfold is_hex_char in Hc. apply Nat.ltb_lt.
  apply orb_prop in Hc.
  destruct Hc as [Hc|Hc]; apply andb_prop in Hc; destruct Hc as [_ Hc];
    apply Nat.leb_le in Hc; lia.
Qed.

(** X4: verify_signature never raises and touches neither the collection
    nor the outbox; it answers True only for the header value "sha256="
    followed by the HMAC-SHA256 hex digest of the payload under the API
    token, so an absent, empty, differently labelled or wrong value is
    refused. *)
Theorem verify_signature_sound (payload : string) (signature : option string)
  (w : World) :
  let out := verify_signature E payload signature w in
  let expected := hmac_sha256_hex E (WHATSAPP_API_TOKEN (settings E)) payload in
  (exists b, fst out = Ok b) /\
  w_messages (snd out) = w_messages w /\
  w_outbox (snd out) = w_outbox w /\
  (fst out = Ok true -> signature = Some ("sha256=" +:+ expected)).
Proof.
  cbv zeta. unfold verify_signature.
  destruct signature as [s|]; cbn [Py.truthy negb default from_option id];
    [|repeat split; [eexists; reflexivity | discriminate]].
  destruct (String.eqb s EmptyString); cbn [negb];
    [repeat split; [eexists; reflexivity | discriminate]|].
  pose proof (join_split "=" s) as Hj.
  unfold try_except.
  destruct (Py.split "=" s) as [|hash_type [|hash_value [|x xs]]];
    try (run; repeat split; [eexists; reflexivity | discriminate]).
  destruct (String.eqb_spec hash_type "sha256") as [->|Hne]; cbn [negb];
    [|run; repeat split; [eexists; reflexivity | discriminate]].
  unfold compare_digest.
  destruct (is_ascii _ && is_ascii hash_value);
    [|run; repeat split; [eexists; reflexivity | discriminate]].
  run. repeat split; [eexists; reflexivity|].
  intros [= Heq]. apply String.eqb_eq in Heq. subst hash_value.
  rewrite <- Hj. reflexivity.
Qed.

(** X5: when the digest is hexadecimal text, as a hexdigest is, the header
    value "sha256=" followed by the digest of the payload is accepted, and
    the check leaves the world as it was. *)
Theorem verify_signature_complete (payload : string) (w : World) :
  let expected := hmac_sha256_hex E (WHATSAPP_API_TOKEN (settings E)) payload in
  is_hex expected = true ->
  verify_signature E payload (Some ("sha256=" +:+ expected)) w = (Ok true, w).
Proof.
  cbv zeta. intros Hhex. unfold verify_signature.
  set (expected := hmac_sha256_hex E (WHATSAPP_API_TOKEN (settings E)) payload) in *.
  assert (Hsplit : Py.split "=" ("sha256=" +:+ expected) = ["sha256"; expected]).
  { change ("sha256=" +:+ expected) with ("sha256" +:+ String "=" expected).
    rewrite split_app by reflexivity. rewrite (split_hex _ Hhex). reflexivity. }
  assert (Htruthy : Py.truthy (Some ("sha256=" +:+ expected)) = true) by reflexivity.
  rewrite Htruthy. cbn [negb default from_option id]. rewrite Hsplit.
  change (negb ("sha256" =? "sha256")%string) with false. cbv iota.
  unfold try_except, compare_digest, lift.
  rewrite (hex_is_ascii _ Hhex), String.eqb_refl. reflexivity.
Qed.

(** ** The handlers *)

Lemma emits_ret {A} (to : json) (n : nat) (a : A) : emits E to n (ret a).
Proof.
  intros w. exists []. cbn. rewrite app_nil_r.
  repeat split; [lia | constructor].
Qed.

Lemma emits_raise {A} (to : json) (n : nat) (e : exn) : emits E to n (@raise A e).
Proof.
  intros w. exists []. cbn. rewrite app_nil_r.
  repeat split; [lia | constructor].
Qed.

Lemma emits_logger (to : json) (n : nat) (l : log_line) : emits E to n (logger l).
Proof.
  intros w. exists []. cbn. rewrite app_nil_r.
  repeat split; [lia | constructor].
Qed.

Lemma emits_bind {A B} (to : json) (a b : nat) (m : M A) (k : A -> M B) :
  emits E to a m -> (forall x, emits E to b (k x)) -> emits E to (a + b) (bind m k).
Proof.
  intros Hm Hk w. destruct (Hm w) as (p1 & Ho1 & Hl1 & Hf1 & Hm1).
  unfold bind. destruct (m w) as [[x|e] w1]; cbn [fst snd] in *.
  - destruct (Hk x w1) as (p2 & Ho2 & Hl2 & Hf2 & Hm2).
    exists (p1 ++ p2). rewrite Ho2, Ho1, Hm2, Hm1, app_assoc, length_app.
    repeat split; [lia | apply Forall_app; split; assumption].
  - exists p1. repeat split; [exact Ho1 | lia | exact Hf1 | exact Hm1].
Qed.

Lemma emits_lift {A B} (to : json) (n : nat) (r : result A) (k : A -> M B) :
  (forall x, emits E to n (k x)) -> emits E to n (bind (lift r) k).
Proof.
  intros Hk. destruct r as [x|e].
  - intros w. rewrite bind_lift_ok. apply Hk.
  - apply (@emits_raise B).
Qed.

Lemma emits_then_log {A} (to : json) (n : nat) (l : log_line) (k : M A) :
  emits E to n k -> emits E to n (logger l ;; k).
Proof.
  intros Hk. change n with (0 + n)%nat. apply emits_bind.
  - apply emits_logger.
  - intros _. exact Hk.
Qed.

Lemma emits_try_except {A} (to : json) (n : nat) (body : M A) (handler : exn -> M A) :
  emits E to n body -> (forall e, emits E to 0 (handler e)) ->
  emits E to n (try_except body handler).
Proof.
  intros Hb Hh w. destruct (Hb w) as (p1 & Ho1 & Hl1 & Hf1 & Hm1).
  unfold try_except. destruct (body w) as [[x|e] w1]; cbn [fst snd] in *.
  - exists p1. repeat split; assumption.
  - destruct (Hh e w1) as (p2 & Ho2 & Hl2 & Hf2 & Hm2).
    destruct p2; [|cbn in Hl2; lia].
    exists p1. rewrite Ho2, Hm2, app_nil_r. repeat split; assumption.
Qed.

Lemma emits_send_request {A} (to payload : json) (k : M A) :
  field "to" JNull payload = to ->
  is_receipt payload = false ->
  emits E to 0 k ->
  emits E to 1 (_send_request E (api_url E +:+ "/messages") payload ;; k).
Proof.
  intros Hto Hnr Hk. change 1%nat with (1 + 0)%nat.
  apply emits_bind; [|intros _; exact Hk].
  intros w.
  destruct (send_request_cases E (api_url E +:+ "/messages") payload w)
    as (_ & Ho & Hm & _).
  eexists. split; [exact Ho|]. repeat split; [cbn; lia | | exact Hm].
  constructor; [|constructor]. repeat split; assumption.
Qed.

Lemma emits_send_text (to : json) (message : string) :
  emits E to 1 (send_text_message E to message false ;; ret tt).
Proof.
  apply emits_send_request; [reflexivity | reflexivity | apply emits_ret].
Qed.

Lemma buttons_payload_to (to : json) (body_text : string)
  (buttons : list (list (string * string))) (header_text footer_text : option string)
  (payload : json) :
  buttons_payload to body_text buttons header_text footer_text = Ok payload ->
  field "to" JNull payload = to /\ is_receipt payload = false.
Proof.
  unfold buttons_payload. destruct (3 <? length buttons)%nat; [discriminate|].
  destruct (button_entries buttons); [|discriminate].
  intros [= <-]. split; reflexivity.
Qed.

Lemma emits_send_buttons (to : json) (body_text : string)
  (buttons : list (list (string * string))) (header_text footer_text : option string) :
  emits E to 1 (send_buttons E to body_text buttons header_text footer_text ;; ret tt).
Proof.
  unfold send_buttons.
  destruct (buttons_payload to body_text buttons header_text footer_text)
    as [payload|e] eqn:Hb.
  - intros w.
    change (exists posts,
      w_outbox (snd ((_send_request E (api_url E +:+ "/messages") payload ;; ret tt) w)) =
        w_outbox w ++ posts /\
      (length posts <= 1)%nat /\
      Forall (addressed E to) posts /\
      w_messages (snd ((_send_request E (api_url E +:+ "/messages") payload ;; ret tt) w)) =
        w_messages w).
    apply (emits_send_request to payload (ret tt));
      [exact (proj1 (buttons_payload_to _ _ _ _ _ _ Hb))
      | exact (proj2 (buttons_payload_to _ _ _ _ _ _ Hb)) | apply emits_ret].
  - intros w. exists []. cbn. rewrite app_nil_r. repeat split; [lia | constructor].
Qed.

Lemma handle_text_message_emits (message from_number : json) :
  emits E from_number 1 (handle_text_message E message from_number).
Proof.
  unfold handle_text_message.
  apply emits_lift; intros text_obj. apply emits_lift; intros body.
  apply emits_lift; intros text. apply emits_then_log.
  repeat match goal with
         | |- emits _ _ _ (if ?c then _ else _) => destruct c
         end;
    try apply emits_send_text.
  - apply emits_send_request; [reflexivity | reflexivity | apply emits_ret].
  - apply emits_send_buttons.
Qed.

Lemma handle_image_message_emits (message from_number : json) :
  emits E from_number 1 (handle_image_message E message from_number).
Proof.
  unfold handle_image_message.
  apply emits_lift; intros image. apply emits_lift; intros caption.
  apply emits_then_log. apply emits_send_text.
Qed.

Lemma handle_document_message_emits (message from_number : json) :
  emits E from_number 1 (handle_document_message E message from_number).
Proof.
  unfold handle_document_message.
  apply emits_lift; intros document. apply emits_lift; intros filename.
  apply emits_then_log. apply emits_send_text.
Qed.

Lemma handle_audio_message_emits (message from_number : json) :
  emits E from_number 1 (handle_audio_message E message from_number).
Proof. unfold handle_audio_message. apply emits_then_log. apply emits_send_text. Qed.

Lemma handle_video_message_emits (message from_number : json) :
  emits E from_number 1 (handle_video_message E message from_number).
Proof. unfold handle_video_message. apply emits_then_log. apply emits_send_text. Qed.

Lemma handle_location_message_emits (message from_number : json) :
  emits E from_number 1 (handle_location_message E message from_number).
Proof.
  unfold handle_location_message.
  apply emits_lift; intros location. apply emits_lift; intros latitude.
  apply emits_lift; intros longitude.
  apply emits_then_log. apply emits_send_text.
Qed.

Lemma handle_interactive_message_emits (message from_number : json) :
  emits E from_number 1 (handle_interactive_message E message from_number).
Proof.
  unfold handle_interactive_message.
  apply emits_lift; intros interactive. apply emits_lift; intros interactive_type.
  destruct (Py.eq_str interactive_type "button_reply");
    [|destruct (Py.eq_str interactive_type "list_reply")].
  - apply emits_lift; intros button_reply. apply emits_lift; intros button_id.
    apply emits_lift; intros button_title.
    apply emits_then_log. apply emits_send_text.
  - apply emits_lift; intros list_reply. apply emits_lift; intros list_id.
    apply emits_lift; intros list_title.
    apply emits_then_log. apply emits_send_text.
  - apply emits_ret.
Qed.

(** What process_message POSTs: the receipt, then at most one reply. *)
Lemma process_message_posts (message value : json) (w : World) :
  let out := process_message E message value w in
  let receipt :=
    mkPost (api_url E +:+ "/messages") (headers E)
           (read_payload (field "id" JNull message)) in
  exists replies,
    w_outbox (snd out) =
      w_outbox w ++ match message with JObj _ => [receipt] | _ => [] end ++ replies /\
    (length replies <= 1)%nat /\
    Forall (addressed E (field "from" JNull message)) replies.
Proof.
  cbv zeta.
  destruct (process_message E message value w) as [r w'] eqn:Hpm.
  cbn [fst snd]. revert Hpm. unfold process_message.
  destruct message as [| b | z | z | s | items | fs];
    try (run; cbn [Py.get]; run; intros [= <- <-]; cbn [w_outbox];
         exists []; rewrite !app_nil_r; repeat split; [cbn; lia | constructor]).
  unfold try_except. cbn [Py.get field]. rewrite !bind_lift_ok.
  unfold bind at 1. cbn [info logger]. unfold bind at 1. unfold mark_as_read.
  match goal with |- context [_send_request E ?u ?p ?w0] =>
    destruct (send_request_cases E u p w0) as (_ & Ho & _);
    destruct (_send_request E u p w0) as [[d|e] w1] end;
    cbn [fst snd w_outbox] in Ho.
  - unfold bind at 1.
    match goal with |- context [save_message E ?md ?w0] =>
      destruct (save_message_cases E md w0 (message_record_no_id _ _ _ _ _)) as (_ & Hs);
      destruct (save_message E md w0) as [[i|e] w2] end;
      cbn [fst snd] in Hs.
    + match goal with |- context [(if ?c then ?a else ?b) w2] =>
        assert (Hd : emits E (default JNull (Py.assoc "from" fs)) 1 (if c then a else b))
      end.
      { repeat match goal with
               | |- emits _ _ _ (if ?c then _ else _) => destruct c
               end.
        - apply handle_text_message_emits.
        - apply handle_image_message_emits.
        - apply handle_document_message_emits.
        - apply handle_audio_message_emits.
        - apply handle_video_message_emits.
        - apply handle_location_message_emits.
        - apply handle_interactive_message_emits.
        - apply emits_logger. }
      destruct (Hd w2) as (replies & Hr & Hl & Hf & _).
      match goal with |- context [(if ?c then ?a else ?b) w2] =>
        destruct ((if c then a else b) w2) as [[[]|e] w3] end;
        cbn [fst snd] in Hr; run; intros [= <- <-]; cbn [w_outbox];
        exists replies; rewrite Hr, Hs, Ho, <- app_assoc;
        repeat split; assumption.
    + run. intros [= <- <-]. cbn [w_outbox]. exists [].
      rewrite Hs, Ho. repeat split; [cbn; lia | constructor].
  - run. intros [= <- <-]. cbn [w_outbox]. exists [].
    rewrite Ho. repeat split; [cbn; lia | constructor].
Qed.






(** X9: a text message whose text is not an object, or whose body is not a
    string, gets no reply: the handler raises before it logs or sends
    anything. *)
Theorem text_without_string_body_raises (message from_number : json) (w : World) :
  (forall s, text_body message <> Ok (JStr s)) ->
  handle_text_message E message from_number w = (Raised AttributeError, w).
Proof.
  unfold text_body, handle_text_message. intros H.
  destruct (Py.get message "text" (JObj [])) as [text_obj|e] eqn:Ht.
  - rewrite bind_lift_ok.
    destruct (Py.get text_obj "body" (JStr EmptyString)) as [body|e] eqn:Hb.
    + rewrite bind_lift_ok.
      destruct body; try reflexivity. destruct (H s eq_refl).
    + destruct text_obj; try discriminate Hb; inversion Hb; reflexivity.
  - destruct message; try discriminate Ht; inversion Ht; reflexivity.
Qed.

Lemma update_first_length (sel : Doc -> bool) (fields : list (string * bson))
  (ds : list Doc) :
  length (fst (update_first sel fields ds)) = length ds.
Proof.
  induction ds as [|d ds IH]; simpl; [reflexivity|].
  destruct (sel d); simpl; [reflexivity|].
  destruct (update_first sel fields ds) as [ds' n]. simpl in *. congruence.
Qed.

Lemma update_message_status_frame (message_id status timestamp : json) (w : World) :
  let out := update_message_status E message_id status timestamp w in
  (exists b, fst out = Ok b) /\
  w_outbox (snd out) = w_outbox w /\
  length (w_messages (snd out)) = length (w_messages w).
Proof.
  cbv zeta.
  destruct (update_message_status E message_id status timestamp w) as [r w'] eqn:Hu.
  cbn [fst snd]. revert Hu.
  unfold update_message_status, datetime_utcnow, update_one, mongo_command. run.
  match goal with |- context [mongo_up E ?n ?c] => destruct (mongo_up E n c) end.
  - match goal with |- context [update_first ?sel ?f ?ds] =>
      pose proof (update_first_length sel f ds) as Hl;
      destruct (update_first sel f ds) as [ds' n] end.
    cbn [fst] in Hl. destruct (0 <? n)%nat; run; intros [= <- <-];
      cbn [w_outbox w_messages]; repeat split; eauto.
  - intros [= <- <-]. cbn [w_outbox w_messages]. repeat split; eauto.
Qed.

Lemma process_status_frame (status : json) (w : World) :
  let out := process_status E status w in
  fst out = Ok tt /\
  w_outbox (snd out) = w_outbox w /\
  length (w_messages (snd out)) = length (w_messages w).
Proof.
  cbv zeta. split.
  { destruct (process_status_total E status w) as [w' ->]. reflexivity. }
  destruct (process_status E status w) as [r w'] eqn:Hp.
  cbn [fst snd]. revert Hp. unfold process_status, try_except.
  destruct status as [| b | z | z | s | items | fs];
    try (run; cbn [Py.get]; run; intros [= <- <-]; split; reflexivity).
  cbn [Py.get]. rewrite !bind_lift_ok. unfold bind at 1. cbn [info logger].
  unfold bind at 1.
  match goal with |- context [update_message_status E ?a ?b ?c ?w0] =>
    destruct (update_message_status_frame a b c w0) as ([x Hx] & Ho & Hl);
    destruct (update_message_status E a b c w0) as [[y|e] w1] end;
    cbn [fst snd w_outbox w_messages] in Hx, Ho, Hl; [|discriminate Hx].
  run. intros [= <- <-]. split; assumption.
Qed.

(** X10: a status update never sends anything and never adds or removes a
    stored message, whatever the status object holds and whether or not the
    database answers; process_status returns normally. *)
Theorem process_status_sends_nothing (status : json) (w : World) :
  let out := process_status E status w in
  fst out = Ok tt /\
  w_outbox (snd out) = w_outbox w /\
  length (w_messages (snd out)) = length (w_messages w).
Proof. exact (process_status_frame status w). Qed.

(** ** The message collection, beyond the claims *)

Lemma json_eqb_eq : forall a b, json_eqb a b = true -> a = b.
Proof.
  fix IH 1. intros [| x | x | x | x | xs | xs] [| y | y | y | y | ys | ys];
    simpl; try discriminate; intros H.
  - reflexivity.
  - apply Bool.eqb_prop in H. congruence.
  - apply Z.eqb_eq in H. congruence.
  - apply Z.eqb_eq in H. congruence.
  - apply String.eqb_eq in H. congruence.
  - f_equal. revert ys H.
    induction xs as [|x xs IHxs]; intros [|y ys] H; try discriminate; [reflexivity|].
    apply andb_prop in H. destruct H as [H1 H2].
    f_equal; [apply IH; exact H1 | apply IHxs; exact H2].
  - f_equal. revert ys H.
    induction xs as [|[k x] xs IHxs]; intros [|[k' y] ys] H; try discriminate;
      [reflexivity|].
    apply andb_prop in H. destruct H as [H12 H3].
    apply andb_prop in H12. destruct H12 as [H1 H2].
    apply String.eqb_eq in H1. subst k'.
    f_equal; [f_equal; apply IH; exact H2 | apply IHxs; exact H3].
Qed.

Lemma bson_eqb_eq (a b : bson) : bson_eqb a b = true -> a = b.
Proof.
  destruct a, b; simpl; try discriminate; intros H.
  - f_equal. apply json_eqb_eq. exact H.
  - apply Z.eqb_eq in H. congruence.
  - apply Nat.eqb_eq in H. congruence.
Qed.

Lemma set_fields_unchanged (fields : list (string * bson)) (d : Doc) :
  unchanged_by fields d = true -> set_fields fields d = d.
Proof.
  unfold set_fields, unchanged_by. revert d.
  induction fields as [|[k v] fields IH]; intros d H; simpl in *; [reflexivity|].
  apply andb_prop in H. destruct H as [Hk Hrest].
  destruct (d !! k) as [v'|] eqn:Hd; [|discriminate].
  apply bson_eqb_eq in Hk. subst v'.
  rewrite (insert_id d k v Hd). apply IH. exact Hrest.
Qed.

Lemma set_fields_lookup_other (fields : list (string * bson)) (d : Doc) (k : string) :
  (forall v, ~ In (k, v) fields) -> set_fields fields d !! k = d !! k.
Proof.
  unfold set_fields. revert d.
  induction fields as [|[k' v'] fields IH]; intros d H; simpl; [reflexivity|].
  rewrite IH.
  - apply lookup_insert_ne. intros ->. apply (H v'). left. reflexivity.
  - intros v Hin. apply (H v). right. exact Hin.
Qed.

(** What [update_first] does to a collection: nothing (count 0), or the
    fields are set on the first selected document, which they change
    (count 1). *)
Lemma update_first_cases (sel : Doc -> bool) (fields : list (string * bson))
  (ds : list Doc) :
  (update_first sel fields ds = (ds, 0%nat)) \/
  (exists i d,
     ds !! i = Some d /\ sel d = true /\
     (forall j d0, (j < i)%nat -> ds !! j = Some d0 -> sel d0 = false) /\
     update_first sel fields ds = (<[i := set_fields fields d]> ds, 1%nat)).
Proof.
  induction ds as [|d ds IH]; simpl; [left; reflexivity|].
  destruct (sel d) eqn:Hsel.
  - destruct (unchanged_by fields d) eqn:Hun.
    + left. rewrite (set_fields_unchanged _ _ Hun). reflexivity.
    + right. exists 0%nat, d. repeat split; [exact Hsel | intros; lia].
  - destruct IH as [-> | (i & d1 & Hi & Hs & Hfirst & ->)].
    + left. reflexivity.
    + right. exists (S i), d1. repeat split; [exact Hi | exact Hs |].
      intros [|j] d0 Hj Hd0; simpl in Hd0.
      * congruence.
      * apply (Hfirst j d0); [lia | exact Hd0].
Qed.

(** X11: update_message_status changes the collection only when it returns
    True, and then only the first stored document its filter selects: that
    document gets the status and the status time stamp, keeps every field
    other than status, status_timestamp and updated_at, and every other
    document stays as it was.  It never raises. *)
Theorem update_message_status_first_match_only (message_id status timestamp : json)
  (w : World) :
  let out := update_message_status E message_id status timestamp w in
  match fst out with
  | Ok true =>
      exists i d d',
        w_messages w !! i = Some d /\
        mongo_match E message_id d = true /\
        (forall j d0, (j < i)%nat -> w_messages w !! j = Some d0 ->
                      mongo_match E message_id d0 = false) /\
        w_messages (snd out) = <[i := d']> (w_messages w) /\
        d' !! "status" = Some (BJson status) /\
        d' !! "status_timestamp" = Some (BJson timestamp) /\
        (forall k, k <> "status" -> k <> "status_timestamp" -> k <> "updated_at" ->
                   d' !! k = d !! k)
  | Ok false => w_messages (snd out) = w_messages w
  | Raised _ => False
  end.
Proof.
  cbv zeta.
  destruct (update_message_status E message_id status timestamp w) as [r w'] eqn:Hu.
  cbn [fst snd]. revert Hu.
  unfold update_message_status, datetime_utcnow, update_one, mongo_command. run.
  match goal with |- context [mongo_up E ?n ?c] => destruct (mongo_up E n c) end;
    [|intros [= <- <-]; reflexivity].
  match goal with |- context [update_first ?sel ?f ?ds] =>
    destruct (update_first_cases sel f ds) as [-> | (i & d & Hi & Hs & Hfirst & ->)]
  end.
  - cbn [Nat.ltb Nat.leb]. intros [= <- <-]. reflexivity.
  - cbn [Nat.ltb Nat.leb]. run. intros [= <- <-]. cbn [w_messages].
    eexists i, d, _. repeat split; try eassumption.
    + unfold set_fields. cbn [fold_left fst snd].
      rewrite !lookup_insert_ne by discriminate. apply lookup_insert_eq.
    + unfold set_fields. cbn [fold_left fst snd].
      rewrite lookup_insert_ne by discriminate. apply lookup_insert_eq.
    + intros k H1 H2 H3. unfold set_fields. cbn [fold_left fst snd].
      rewrite !lookup_insert_ne by congruence. reflexivity.
Qed.

(** X12: save_message either appends exactly one document, which carries
    the returned id, the two clock readings as created_at and updated_at
    and every other field as the caller gave it, or it raises and leaves
    the collection as it was; it never changes a stored document and never
    sends anything. *)
Theorem save_message_appends_or_keeps (message_data : Doc) (w : World) :
  let out := save_message E message_data w in
  w_outbox (snd out) = w_outbox w /\
  match fst out with
  | Ok inserted_id =>
      exists d,
        w_messages (snd out) = w_messages w ++ [d] /\
        d !! "_id" = Some inserted_id /\
        d !! "created_at" = Some (BDate (utcnow E (w_clock_reads w))) /\
        d !! "updated_at" = Some (BDate (utcnow E (S (w_clock_reads w)))) /\
        (forall k, k <> "_id" -> k <> "created_at" -> k <> "updated_at" ->
                   d !! k = message_data !! k)
  | Raised e =>
      w_messages (snd out) = w_messages w /\
      (e = PyMongoError \/ e = DuplicateKeyError)
  end.
Proof.
  cbv zeta.
  destruct (save_message E message_data w) as [r w'] eqn:Hs.
  cbn [fst snd]. revert Hs.
  unfold save_message, datetime_utcnow, insert_one, mongo_command. run.
  match goal with |- context [mongo_up E ?n ?c] => destruct (mongo_up E n c) end;
    [|run; intros [= <- <-]; cbn [w_outbox w_messages]; repeat split; left; reflexivity].
  match goal with |- context [?doc !! "_id"] =>
    destruct (doc !! "_id") as [i|] eqn:Hid end.
  - match goal with |- context [existsb ?f ?l] => destruct (existsb f l) end;
      run; intros [= <- <-]; cbn [w_outbox w_messages].
    + repeat split. right. reflexivity.
    + split; [reflexivity|]. eexists. split; [reflexivity|].
      split; [exact Hid|]. repeat split.
      * rewrite lookup_insert_ne by discriminate. apply lookup_insert_eq.
      * apply lookup_insert_eq.
      * intros k H1 H2 H3. rewrite !lookup_insert_ne by congruence. reflexivity.
  - run. intros [= <- <-]. cbn [w_outbox w_messages].
    split; [reflexivity|]. eexists. split; [reflexivity|]. repeat split.
    + apply lookup_insert_eq.
    + rewrite !lookup_insert_ne by discriminate. apply lookup_insert_eq.
    + rewrite lookup_insert_ne by discriminate. apply lookup_insert_eq.
    + intros k H1 H2 H3. rewrite !lookup_insert_ne by congruence. reflexivity.
Qed.

Lemma find_app {A} (f : A -> bool) (l l' : list A) :
  List.find f (l ++ l') =
  match List.find f l with
  | Some x => Some x
  | None => List.find f l'
  end.
Proof.
  induction l as [|x l IH]; simpl; [reflexivity|].
  destruct (f x); [reflexivity | exact IH].
Qed.


Lemma get_message_cases (message_id : json) (w : World) :
  let out := get_message E mongo_read_up message_id w in
  w_messages (snd out) = w_messages w /\
  w_outbox (snd out) = w_outbox w /\
  fst out =
    Ok (if mongo_read_up (w_db_commands w)
        then List.find (mongo_match E message_id) (w_messages w)
        else None).
Proof.
  cbv zeta. unfold get_message, find_one, mongo_read. run.
  destruct (mongo_read_up (w_db_commands w)); run; repeat split.
Qed.

(** get_message never raises and changes neither the collection nor
    the outbox; it returns the first stored document the filter selects,
    and None when there is none or when the read fails. *)
Theorem get_message_first_or_none (message_id : json) (w : World) :
  let out := get_message E mongo_read_up message_id w in
  w_messages (snd out) = w_messages w /\
  w_outbox (snd out) = w_outbox w /\
  fst out =
    Ok (if mongo_read_up (w_db_commands w)
        then List.find (mongo_match E message_id) (w_messages w)
        else None).
Proof. exact (get_message_cases message_id w). Qed.


(** ** A whole delivery *)

Lemma replies_are_no_receipts (to : json) (replies : list post) :
  Forall (addressed E to) replies ->
  List.filter is_receipt (map post_json replies) = [] /\
  List.filter (fun p => negb (is_receipt p)) (map post_json replies) =
    map post_json replies.
Proof.
  induction 1 as [|p ps (_ & _ & _ & Hp) _ [IH1 IH2]]; simpl; [split; reflexivity|].
  rewrite Hp. simpl. rewrite IH1, IH2. split; reflexivity.
Qed.

Lemma route_posts (ev : event) (w : World) :
  exists posts,
    w_outbox (snd (route E ev w)) = w_outbox w ++ posts /\
    List.filter is_receipt (map post_json posts) = receipts_of [ev] /\
    (length (List.filter (fun p => negb (is_receipt p)) (map post_json posts))
     <= count_messages [ev])%nat.
Proof.
  destruct ev as [message value | status]; cbn [route].
  - destruct (process_message_posts message value w) as (replies & Ho & Hl & Hf).
    destruct (replies_are_no_receipts _ _ Hf) as [Hr Hn].
    eexists. split; [exact Ho|].
    rewrite !map_app, !List.filter_app, Hr, Hn, app_nil_r, length_app, length_map.
    destruct message; cbn; split; try reflexivity; lia.
  - destruct (process_status_frame status w) as (_ & Ho & _).
    exists []. rewrite app_nil_r. split; [exact Ho|]. split; [reflexivity | cbn; lia].
Qed.

Lemma receipts_of_cons (ev : event) (events : list event) :
  receipts_of (ev :: events) = receipts_of [ev] ++ receipts_of events.
Proof. unfold receipts_of. cbn [flat_map]. rewrite app_nil_r. reflexivity. Qed.

Lemma count_messages_cons (ev : event) (events : list event) :
  count_messages (ev :: events) = (count_messages [ev] + count_messages events)%nat.
Proof. unfold count_messages. destruct ev; reflexivity. Qed.

Lemma for_each_route_posts (events : list event) (w : World) :
  exists posts,
    w_outbox (snd (for_each events (route E) w)) = w_outbox w ++ posts /\
    List.filter is_receipt (map post_json posts) = receipts_of events /\
    (length (List.filter (fun p => negb (is_receipt p)) (map post_json posts))
     <= count_messages events)%nat.
Proof.
  revert w. induction events as [|ev events IH]; intros w.
  - exists []. cbn. rewrite app_nil_r. repeat split. lia.
  - cbn [for_each]. unfold bind.
    destruct (route_posts ev w) as (p1 & Ho1 & Hr1 & Hn1).
    destruct (route_total E ev w) as [w1 Hw1]. rewrite Hw1 in Ho1 |- *.
    cbn [snd] in Ho1.
    destruct (IH w1) as (p2 & Ho2 & Hr2 & Hn2).
    exists (p1 ++ p2).
    rewrite (receipts_of_cons ev events), (count_messages_cons ev events).
    rewrite Ho2, Ho1, <- app_assoc, !map_app, !List.filter_app, length_app, Hr1, Hr2.
    repeat split. lia.
Qed.

(** X14: in a delivery of the envelope shape every message object is
    marked as read exactly once, in the order of the delivery, whatever
    happens to the messages before it (a handler that fails, a send that is
    refused, a save that fails); besides the receipts the bot POSTs at most
    one reply per message, statuses cause no POST, and the delivery is
    acknowledged with "ok". *)
Theorem delivery_marks_every_message_read (req : request) (body : json) (w : World) :
  req_json req = Some body ->
  envelope body = true ->
  let out := POST_webhook E req w in
  fst out = status_ok /\
  exists posts,
    w_outbox (snd out) = w_outbox w ++ posts /\
    List.filter is_receipt (map post_json posts) = receipts_of (normalize body) /\
    (length (List.filter (fun p => negb (is_receipt p)) (map post_json posts))
     <= count_messages (normalize body))%nat.
Proof.
  intros Hreq Henv. cbv zeta. unfold POST_webhook, serve.
  rewrite (receive_message_delivers E _ _ _ Hreq Henv).
  split; [destruct (deliver_returns E body w) as [w' ->]; reflexivity|].
  unfold deliver.
  destruct (for_each_route_posts (normalize body)
              (snd ((info "Received webhook: {}" [body] ;;
                     (if has_key "entry" body then ret tt
                      else warning "No entry in webhook body" [])) w)))
    as (posts & Ho & Hr & Hn).
  exists posts. split; [|split; assumption].
  revert Ho. run.
  destruct (has_key "entry" body); run;
    match goal with |- context [for_each ?evs ?f ?w0] =>
      destruct (for_each_total evs f (route_total E) w0) as [w' ->]
    end; cbn [snd w_outbox]; intros ->; reflexivity.
Qed.

End More.

(** * The user collection *)

Section MoreUsers.

Variable E : Env.
Variable users_up : nat -> bool.
Variable users_match : bson -> Doc -> bool.

Lemma update_first_find (sel : Doc -> bool) (fields : list (string * bson))
  (ds : list Doc) (d : Doc) :
  List.find sel ds = Some d ->
  exists idx,
    ds !! idx = Some d /\
    fst (update_first sel fields ds) = <[idx := set_fields fields d]> ds.
Proof.
  induction ds as [|d0 ds IH]; simpl; [discriminate|].
  destruct (sel d0) eqn:Hsel.
  - intros [= ->]. exists 0%nat. split; reflexivity.
  - intros H. destruct (IH H) as (idx & Hi & Hu).
    exists (S idx). split; [exact Hi|].
    destruct (update_first sel fields ds) as [ds' n]. simpl in *. congruence.
Qed.

Lemma update_first_none (sel : Doc -> bool) (fields : list (string * bson))
  (ds : list Doc) :
  List.find sel ds = None -> update_first sel fields ds = (ds, 0%nat).
Proof.
  induction ds as [|d0 ds IH]; simpl; [reflexivity|].
  destruct (sel d0); [discriminate|]. intros H. rewrite (IH H). reflexivity.
Qed.


Lemma set_fields_in (fields : list (string * bson)) (d : Doc) (k : string) (v : bson) :
  NoDup (fields.*1) -> (k, v) ∈ fields -> set_fields fields d !! k = Some v.
Proof.
  unfold set_fields. revert d.
  induction fields as [|[k0 v0] fields IH]; intros d Hnd Hin; simpl.
  - inversion Hin.
  - simpl in Hnd. apply NoDup_cons in Hnd. destruct Hnd as [Hk0 Hnd].
    apply elem_of_cons in Hin. destruct Hin as [[= -> ->] | Hin].
    + change (set_fields fields (<[k0:=v0]> d) !! k0 = Some v0).
      rewrite set_fields_lookup_other; [apply lookup_insert_eq|].
      intros v Hv. apply Hk0. apply list_elem_of_fmap.
      exists (k0, v). split; [reflexivity|]. apply list_elem_of_In. exact Hv.
    + apply IH; assumption.
Qed.

Lemma set_fields_map_lookup (m d : Doc) (k : string) :
  set_fields (map_to_list m) d !! k =
  match m !! k with
  | Some v => Some v
  | None => d !! k
  end.
Proof.
  destruct (m !! k) as [v|] eqn:Hm.
  - apply set_fields_in; [apply NoDup_fst_map_to_list|].
    apply elem_of_map_to_list. exact Hm.
  - apply set_fields_lookup_other. intros v Hv.
    apply list_elem_of_In, elem_of_map_to_list in Hv. congruence.
Qed.

Lemma moves_id_without_id (m d : Doc) :
  m !! "_id" = None -> moves_id (map_to_list m) d = false.
Proof.
  intros Hm. unfold moves_id.
  destruct (existsb _ (map_to_list m)) eqn:Hex; [|reflexivity].
  apply existsb_exists in Hex. destruct Hex as ([k v] & Hin & Hkv).
  apply andb_prop in Hkv. destruct Hkv as [Hk _]. cbn in Hk.
  apply String.eqb_eq in Hk. subst k.
  apply list_elem_of_In, elem_of_map_to_list in Hin. congruence.
Qed.

Lemma found_with_field (d : Doc) (k : string) (v : bson) :
  d !! k = Some v -> found (Some d) = true.
Proof.
  intros H. unfold found.
  destruct (Nat.eqb_spec (size d) 0) as [H0|]; [|reflexivity].
  exfalso. apply (map_size_ne_0_lookup_2 d k); [eauto | exact H0].
Qed.

(** What save_user does for a phone number that is stored already. *)
Lemma save_user_existing (user_data : Doc) (s : Store) (d : Doc) (i : bson) :
  let phone_number := default (BJson JNull) (user_data !! "phone_number") in
  List.find (users_match phone_number) (st_users s) = Some d ->
  d !! "_id" = Some i ->
  user_data !! "_id" = None ->
  users_up (w_db_commands (st_world s)) = true ->
  users_up (S (w_db_commands (st_world s))) = true ->
  let out := save_user E users_up users_match user_data s in
  let now := utcnow E (w_clock_reads (st_world s)) in
  fst out = Ok i /\
  w_db_commands (st_world (snd out)) = S (S (w_db_commands (st_world s))) /\
  w_clock_reads (st_world (snd out)) = S (w_clock_reads (st_world s)) /\
  w_next_oid (st_world (snd out)) = w_next_oid (st_world s) /\
  st_users (snd out) =
    fst (update_first
           (users_match (default (BJson JNull) (user_data !! "phone_number")))
           (map_to_list (<["updated_at" := BDate now]> user_data)) (st_users s)).
Proof.
  cbv zeta. intros Hfind Hid Hnoid Hup1 Hup2.
  destruct (save_user E users_up users_match user_data s) as [r s'] eqn:Hs.
  cbn [fst snd]. revert Hs.
  unfold save_user, users_find_one, users_update_one, users_command, doc_index. urun.
  rewrite Hup1. urun. rewrite Hfind, (found_with_field _ _ _ Hid). urun.
  rewrite Hup2. urun. rewrite Hfind.
  rewrite moves_id_without_id
    by (rewrite lookup_insert_ne by discriminate; exact Hnoid).
  match goal with |- context [update_first ?sel ?f ?ds] =>
    destruct (update_first sel f ds) as [ds' n] end.
  urun. cbn [default from_option id]. rewrite Hid. urun.
  intros [= <- <-]. cbn [st_world st_users w_db_commands w_clock_reads w_next_oid].
  repeat split.
Qed.

(** X16: save_user on a phone number that is stored already updates that
    user in place: the number of users stays, the user's id is returned,
    the user keeps its id and every field the call does not give
    (created_at among them), takes every field the call gives, and gets
    the clock reading as updated_at. *)
Theorem save_user_updates_in_place (user_data : Doc) (s : Store) (d : Doc) (i : bson) :
  let phone_number := default (BJson JNull) (user_data !! "phone_number") in
  List.find (users_match phone_number) (st_users s) = Some d ->
  d !! "_id" = Some i ->
  user_data !! "_id" = None ->
  users_up (w_db_commands (st_world s)) = true ->
  users_up (S (w_db_commands (st_world s))) = true ->
  let out := save_user E users_up users_match user_data s in
  fst out = Ok i /\
  length (st_users (snd out)) = length (st_users s) /\
  exists idx d',
    st_users s !! idx = Some d /\
    st_users (snd out) = <[idx := d']> (st_users s) /\
    d' !! "_id" = Some i /\
    d' !! "updated_at" = Some (BDate (utcnow E (w_clock_reads (st_world s)))) /\
    (forall k v, k <> "updated_at" -> user_data !! k = Some v -> d' !! k = Some v) /\
    (forall k, k <> "updated_at" -> user_data !! k = None -> d' !! k = d !! k).
Proof.
  cbv zeta. intros Hfind Hid Hnoid Hup1 Hup2.
  destruct (save_user_existing user_data s d i Hfind Hid Hnoid Hup1 Hup2)
    as (Hr & _ & _ & _ & Hu).
  match type of Hu with context [update_first ?sel ?f ?ds] =>
    destruct (update_first_find sel f ds d Hfind) as (idx & Hidx & Hf)
  end.
  rewrite Hf in Hu.
  split; [exact Hr|]. rewrite Hu. split; [apply length_insert|].
  eexists idx, _. split; [exact Hidx|]. split; [reflexivity|].
  repeat split.
  - rewrite set_fields_map_lookup, lookup_insert_ne by discriminate.
    rewrite Hnoid. exact Hid.
  - rewrite set_fields_map_lookup, lookup_insert_eq. reflexivity.
  - intros k v Hk Hv. rewrite set_fields_map_lookup, lookup_insert_ne by congruence.
    rewrite Hv. reflexivity.
  - intros k Hk Hv. rewrite set_fields_map_lookup, lookup_insert_ne by congruence.
    rewrite Hv. reflexivity.
Qed.

Lemma bson_eqb_refl (v : bson) : bson_eqb v v = true.
Proof.
  destruct v; simpl; [apply json_eqb_refl | apply Z.eqb_refl | apply Nat.eqb_refl].
Qed.

Lemma update_first_app_none (sel : Doc -> bool) (fields : list (string * bson))
  (ds ds' : list Doc) :
  List.find sel ds = None ->
  fst (update_first sel fields (ds ++ ds')) = ds ++ fst (update_first sel fields ds').
Proof.
  induction ds as [|d ds IH]; simpl; [reflexivity|].
  destruct (sel d); [discriminate|]. intros H. specialize (IH H).
  destruct (update_first sel fields (ds ++ ds')) as [l n]. simpl in *. congruence.
Qed.

(** What save_user does for a phone number that is not stored yet. *)
Lemma save_user_new (user_data : Doc) (s : Store) :
  let phone_number := default (BJson JNull) (user_data !! "phone_number") in
  List.find (users_match phone_number) (st_users s) = None ->
  user_data !! "_id" = None ->
  users_up (w_db_commands (st_world s)) = true ->
  users_up (S (w_db_commands (st_world s))) = true ->
  let out := save_user E users_up users_match user_data s in
  let n := w_clock_reads (st_world s) in
  fst out = Ok (BOid (w_next_oid (st_world s))) /\
  w_db_commands (st_world (snd out)) = S (S (w_db_commands (st_world s))) /\
  w_clock_reads (st_world (snd out)) = S (S n) /\
  w_next_oid (st_world (snd out)) = S (w_next_oid (st_world s)) /\
  st_users (snd out) =
    st_users s ++
    [stamped user_data (utcnow E n) (utcnow E (S n)) (w_next_oid (st_world s))].
Proof.
  cbv zeta. intros Hfind Hnoid Hup1 Hup2.
  destruct (save_user E users_up users_match user_data s) as [r s'] eqn:Hs.
  cbn [fst snd]. revert Hs.
  unfold save_user, users_find_one, users_insert_one, users_command. urun.
  rewrite Hup1. urun. rewrite Hfind. cbn [found]. urun. rewrite Hup2. urun.
  rewrite !lookup_insert_ne by discriminate. rewrite Hnoid. urun.
  intros [= <- <-]. cbn [st_world st_users w_db_commands w_clock_reads w_next_oid].
  repeat split.
Qed.

(** X17: save_user is an upsert by phone number.  Saving the same user
    twice (a phone number not stored before, the filter being equality on
    phone_number, the database answering) leaves one document for it: the
    second save returns the id of the first, the document keeps the
    created_at of the first save, carries the updated_at of the second and
    the fields given, and get_user returns it. *)
Theorem save_user_twice_keeps_one (user_data : Doc) (phone_number : bson) (s : Store) :
  user_data !! "phone_number" = Some phone_number ->
  user_data !! "_id" = None ->
  user_data !! "created_at" = None ->
  (forall d, users_match phone_number d = field_is "phone_number" phone_number d) ->
  (forall n, users_up n = true) ->
  List.find (users_match phone_number) (st_users s) = None ->
  let n := w_clock_reads (st_world s) in
  let i := BOid (w_next_oid (st_world s)) in
  let first := save_user E users_up users_match user_data s in
  let second := save_user E users_up users_match user_data (snd first) in
  fst first = Ok i /\
  fst second = Ok i /\
  exists d,
    st_users (snd second) = st_users s ++ [d] /\
    d !! "_id" = Some i /\
    d !! "created_at" = Some (BDate (utcnow E n)) /\
    d !! "updated_at" = Some (BDate (utcnow E (S (S n)))) /\
    (forall k v, k <> "updated_at" -> user_data !! k = Some v -> d !! k = Some v) /\
    fst (get_user users_up users_match phone_number (snd second)) = Ok (Some d).
Proof.
  cbv zeta. intros Hphone Hnoid Hnocreated Hmatch Hup Hfind.
  assert (Hfind' : List.find
            (users_match (default (BJson JNull) (user_data !! "phone_number")))
            (st_users s) = None) by (rewrite Hphone; exact Hfind).
  destruct (save_user_new user_data s Hfind' Hnoid (Hup _) (Hup _))
    as (Hr1 & Hd1 & Hc1 & Ho1 & Hu1).
  set (d1 := stamped user_data (utcnow E (w_clock_reads (st_world s)))
               (utcnow E (S (w_clock_reads (st_world s))))
               (w_next_oid (st_world s))) in *.
  assert (Hsel : forall d, d !! "phone_number" = Some phone_number ->
                           users_match phone_number d = true).
  { intros d Hd. rewrite Hmatch. unfold field_is. rewrite Hd. apply bson_eqb_refl. }
  assert (Hd1p : d1 !! "phone_number" = Some phone_number).
  { unfold d1, stamped. rewrite !lookup_insert_ne by discriminate. exact Hphone. }
  assert (Hd1id : d1 !! "_id" = Some (BOid (w_next_oid (st_world s)))).
  { unfold d1, stamped. apply lookup_insert_eq. }
  set (s1 := snd (save_user E users_up users_match user_data s)) in *.
  assert (Hfind1 : List.find
            (users_match (default (BJson JNull) (user_data !! "phone_number")))
            (st_users s1) = Some d1).
  { rewrite Hphone. cbn [default from_option id].
    rewrite Hu1, find_app, Hfind. cbn [List.find].
    rewrite (Hsel d1 Hd1p). reflexivity. }
  destruct (save_user_existing user_data s1 d1 _ Hfind1 Hd1id Hnoid (Hup _) (Hup _))
    as (Hr2 & _ & _ & _ & Hu2).
  split; [exact Hr1|]. split; [exact Hr2|].
  rewrite Hphone in Hu2. cbn [default from_option id] in Hu2.
  rewrite Hu1 in Hu2.
  rewrite (update_first_app_none _ _ _ _ Hfind) in Hu2.
  cbn [update_first] in Hu2. rewrite (Hsel d1 Hd1p) in Hu2. cbn [fst] in Hu2.
  rewrite Hc1 in Hu2.
  set (d2 := set_fields
               (map_to_list
                  (<["updated_at" := BDate (utcnow E (S (S (w_clock_reads (st_world s)))))]>
                     user_data)) d1) in *.
  assert (Hd2 : forall k v, k <> "updated_at" -> user_data !! k = Some v ->
                            d2 !! k = Some v).
  { intros k v Hk Hv. unfold d2.
    rewrite set_fields_map_lookup, lookup_insert_ne by congruence.
    rewrite Hv. reflexivity. }
  exists d2. split; [exact Hu2|]. repeat split.
  - unfold d2. rewrite set_fields_map_lookup, lookup_insert_ne by discriminate.
    rewrite Hnoid. exact Hd1id.
  - unfold d2. rewrite set_fields_map_lookup, lookup_insert_ne by discriminate.
    rewrite Hnocreated. unfold d1, stamped.
    rewrite !lookup_insert_ne by discriminate. apply lookup_insert_eq.
  - unfold d2. rewrite set_fields_map_lookup, lookup_insert_eq. reflexivity.
  - exact Hd2.
  - unfold get_user, users_find_one, users_command. urun. rewrite Hup. urun.
    rewrite Hu2, find_app, Hfind. cbn [List.find].
    rewrite (Hsel d2 (Hd2 "phone_number" phone_number ltac:(discriminate) Hphone)).
    reflexivity.
Qed.

End MoreUsers.

(** * Concrete runs of the further properties *)

Lemma verify_signature_complete_witness :
  is_hex (hmac_sha256_hex env_up (WHATSAPP_API_TOKEN (settings env_up)) "{}") = true /\
  verify_signature env_up "{}" (Some "sha256=00") world0 = (Ok true, world0).
Proof.
  split; [reflexivity|].
  exact (verify_signature_complete env_up "{}" world0 eq_refl).
Defined.



Lemma text_without_string_body_raises_witness :
  text_body number_message = Ok (JInt 42) /\
  handle_text_message env_up number_message (JStr "15550001111") world0 =
    (Raised AttributeError, world0).
Proof.
  split; [reflexivity|].
  apply (text_without_string_body_raises env_up number_message (JStr "15550001111")
           world0).
  intros s. discriminate.
Defined.


Lemma delivery_marks_every_message_read_witness :
  envelope (delivery_of [sticker_message; text_message "hello"] [sample_status]) = true /\
  receipts_of
    (normalize (delivery_of [sticker_message; text_message "hello"] [sample_status])) =
    [read_payload (JStr "wamid.test456"); read_payload (JStr "wamid.test123")] /\
  exists posts,
    w_outbox (snd (POST_webhook env_down
                     (request_of (delivery_of [sticker_message; text_message "hello"]
                                    [sample_status])) world0)) = posts /\
    List.filter is_receipt (map post_json posts) =
      [read_payload (JStr "wamid.test456"); read_payload (JStr "wamid.test123")].
Proof.
  split; [reflexivity|]. split; [reflexivity|].
  destruct (delivery_marks_every_message_read env_down
              (request_of (delivery_of [sticker_message; text_message "hello"]
                             [sample_status]))
              _ world0 eq_refl eq_refl) as (_ & posts & Ho & Hr & _).
  exists posts. split; [exact Ho | exact Hr].
Defined.

Lemma save_user_updates_in_place_witness :
  List.find (field_is "phone_number" (BJson (JStr "15550001111"))) (st_users store_one) =
    Some (stamped sample_user 0 1 0) /\
  fst (save_user env_up always_up (field_is "phone_number")
         (<["name" := BJson (JStr "Ada L.")]> sample_user) store_one) = Ok (BOid 0) /\
  length (st_users (snd (save_user env_up always_up (field_is "phone_number")
                           (<["name" := BJson (JStr "Ada L.")]> sample_user) store_one))) =
    1%nat.
Proof.
  assert (H : List.find (field_is "phone_number" (BJson (JStr "15550001111")))
                        (st_users store_one) = Some (stamped sample_user 0 1 0))
    by (vm_compute; reflexivity).
  split; [exact H|].
  assert (Hfind : List.find
            (field_is "phone_number"
               (default (BJson JNull)
                  ((<["name" := BJson (JStr "Ada L.")]> sample_user) !! "phone_number")))
            (st_users store_one) = Some (stamped sample_user 0 1 0))
    by (vm_compute; reflexivity).
  assert (Hid : stamped sample_user 0 1 0 !! "_id" = Some (BOid 0))
    by (vm_compute; reflexivity).
  assert (Hno : (<["name" := BJson (JStr "Ada L.")]> sample_user) !! "_id" = None)
    by (vm_compute; reflexivity).
  destruct (save_user_updates_in_place env_up always_up (field_is "phone_number")
              (<["name" := BJson (JStr "Ada L.")]> sample_user) store_one
              (stamped sample_user 0 1 0) (BOid 0) Hfind Hid Hno eq_refl eq_refl)
    as (Hr & Hl & _).
  split; [exact Hr | exact Hl].
Defined.

Lemma save_user_twice_keeps_one_witness :
  sample_user !! "phone_number" = Some (BJson (JStr "15550001111")) /\
  fst (save_user env_up always_up (field_is "phone_number") sample_user store_one) =
    Ok (BOid 0) /\
  exists d,
    st_users (snd (save_user env_up always_up (field_is "phone_number") sample_user
                     store_one)) = [d] /\
    d !! "created_at" = Some (BDate 0) /\
    d !! "updated_at" = Some (BDate 2).
Proof.
  assert (H1 : sample_user !! "phone_number" = Some (BJson (JStr "15550001111")))
    by (vm_compute; reflexivity).
  assert (H2 : sample_user !! "_id" = None) by (vm_compute; reflexivity).
  assert (H3 : sample_user !! "created_at" = None) by (vm_compute; reflexivity).
  split; [exact H1|].
  destruct (save_user_twice_keeps_one env_up always_up (field_is "phone_number")
              sample_user (BJson (JStr "15550001111")) store0
              H1 H2 H3 (fun _ => eq_refl) (fun _ => eq_refl) eq_refl)
    as (_ & Hr & d & Hu & _ & Hc & Hup & _).
  split; [exact Hr|]. exists d. split; [exact Hu|]. split; [exact Hc | exact Hup].
Defined.
